(** * avg.py: histogram reduction and luminance quantisation

    A shallow embedding of [src/avg.py] of embryo-engine: the body of the
    [for histogram in samples] loop (pixel count, per-bin ratios, the
    weighted array, its logarithmic-depth in-place reduction, the weighted
    log average and the decoded linear luminance) and the function
    [colorToBin].

    Conventions.
    - Python [int] is [Z]; list indices and loop counters, which the script
      only ever builds from [range] and [len], are [nat].
    - Python [float] is read as a real number ([R]): rounding is not
      modelled.  [math.log2 x] is [ln x / ln 2] and raises [ValueError] for
      [x <= 0]; [int(x)] truncates towards zero.  Where a float leaves its
      range the operations of lines 35 and 42 raise [OverflowError]:
      [int / int] when the quotient rounds to [2 ** 1024] or beyond, and
      [2 ** x], which is [Rpower 2 x], from [x = 1024] on.  The two tests
      decide the same way on the rounded values, for every integer that
      [histogramShared[0]] can hold.
    - List objects live in a heap indexed by references, so that building
      [histogramShared] allocates a new object and item assignment mutates
      the object a name refers to.
    - Statements run in a state-and-exception monad in which the state
      survives a raised exception, as a mutated Python object does.
    - [print] produces no value and changes no object; only the evaluation
      of its arguments (which may raise) is kept.  An integer is turned
      into text whatever its size.
    - [math.log2] and [math.ceil] of a list length, and of a length
      divided by a power of two, are taken exactly; so they are in floats
      for every length a list can have.
    - [colorToBin] is taken as called once a pass of the loop has run,
      which is when the globals [minLogLum] and [inverseLogLumRange] it
      reads are bound.  Its test [lum < 0.005] is made on the exact value
      of line 48: a colour whose luminance rounds across 0.005, or across
      0, falls on the side of its exact value here. *)

From Stdlib Require Import ZArith Reals Lra Lia.
From stdpp Require Import base list gmap strings.

Open Scope Z_scope.

(** ** Exceptions and outcomes *)

(** The exception classes a run can end in: the built-in ones the script's
    operations raise, and any other class by its name. *)
Inductive exn : Type :=
| IndexError
| ZeroDivisionError
| ValueError
| NameError
| OverflowError
| Custom (cls : string).

(** The class the specification names for an empty histogram. *)
Definition EmptyHistogramError : exn := Custom "EmptyHistogramError".

Inductive outcome (A : Type) : Type :=
| Ok (a : A)
| Raise (e : exn).
Arguments Ok {A} a.
Arguments Raise {A} e.

Definition obind {A B} (o : outcome A) (k : A → outcome B) : outcome B :=
  match o with Ok a => k a | Raise e => Raise e end.

(** ** Statements: state passing with exceptions *)

Definition M (S A : Type) : Type := S → S * outcome A.

Definition ret {S A} (a : A) : M S A := λ s, (s, Ok a).

Definition raise {S A} (e : exn) : M S A := λ s, (s, Raise e).

Definition bind {S A B} (k : A → M S B) (m : M S A) : M S B :=
  λ s, match m s with
       | (s', Ok a) => k a s'
       | (s', Raise e) => (s', Raise e)
       end.

Definition lift {S A} (o : outcome A) : M S A := λ s, (s, o).

(** Sequencing is written [x ← m; k] and [m;; k]. *)
#[global] Instance M_ret {S} : MRet (M S) := @ret S.
#[global] Instance M_bind {S} : MBind (M S) := @bind S.

(** [for x in xs: body x] *)
Fixpoint for_each {S A} (xs : list A) (body : A → M S unit) : M S unit :=
  match xs with
  | [] => ret tt
  | x :: xs' => body x;; for_each xs' body
  end.

(** [for i in range(lo, hi): body i] *)
Definition for_range {S} (lo hi : nat) (body : nat → M S unit) : M S unit :=
  for_each (seq lo (hi - lo)) body.

(** ** List objects *)

(** [w[i]] with [0 <= i]; out of range it raises [IndexError]. *)
Definition getitem (i : nat) : M (list Z) Z :=
  λ w, (w, match w !! i with Some x => Ok x | None => Raise IndexError end).

(** [w[i] = v] with [0 <= i]; out of range it raises [IndexError] and
    leaves the list as it was. *)
Definition setitem (i : nat) (v : Z) : M (list Z) unit :=
  λ w, if decide (i < length w)%nat then (<[i:=v]> w, Ok tt)
       else (w, Raise IndexError).

(** [len(w)] *)
Definition len : M (list Z) nat := λ w, (w, Ok (length w)).

(** [sum(w)] *)
Definition sum (w : list Z) : Z := foldr Z.add 0 w.

(** ** The heap of list objects *)

Definition ref : Type := positive.
Abbreviation heap := (gmap ref (list Z)).

(** Run a statement on the list object a reference points to. *)
Definition at_ref {A} (l : ref) (m : M (list Z) A) : M heap A :=
  λ σ, match σ !! l with
       | Some w => let '(w', r) := m w in (<[l:=w']> σ, r)
       | None => (σ, Raise NameError)
       end.

(** The value of the list object at a reference. *)
Definition load (l : ref) : M heap (list Z) :=
  λ σ, match σ !! l with
       | Some w => (σ, Ok w)
       | None => (σ, Raise NameError)
       end.

(** A new list object. *)
Definition alloc (v : list Z) : M heap ref :=
  λ σ, let l := fresh (dom σ) in (<[l:=v]> σ, Ok l).

(** ** The reducer: the body of [for histogram in samples] *)

(** [x / y] on integers as line 19 has it: true division,
    [ZeroDivisionError] for [y = 0].  The quotient of a count by the pixel
    count lies between 0 and 1 when no count is negative; that it could
    leave the float range on counts of both signs is not modelled here. *)
Definition true_div {S} (x y : Z) : M S R :=
  if decide (y = 0) then raise ZeroDivisionError
  else ret (IZR x / IZR y)%R.

(** Lines 18-21: the per-bin ratios of the first 255 bins.  The bar of
    line 21 is a string of at most 1000 colons when no count is negative;
    it is printed and kept nowhere. *)
Definition ratios (histogram : ref) (pixels : Z) : M heap unit :=
  for_range 0 255 (λ i,
    x ← at_ref histogram (getitem i);
    true_div x pixels;;
    at_ref histogram (getitem i);;
    ret tt).

(** Line 25: [[x * i for i, x in enumerate(histogram)]] *)
Definition weighted (histogram : list Z) : list Z :=
  imap (λ i x, x * Z.of_nat i) histogram.

(** [int(math.ceil(math.log2(n)))] for a list length [n]: [math.log2(0)]
    raises [ValueError]. *)
Definition ceil_log2 (n : nat) : outcome nat :=
  match n with
  | O => Raise ValueError
  | _ => Ok (Nat.log2_up n)
  end.

(** [int(math.ceil(a / b))] for naturals, [0 < b]. *)
Definition ceil_div (a b : nat) : nat := ((a + b - 1) / b)%nat.

(** Line 28: [cutoff = int(math.ceil(len(histogram) / 2**i))] *)
Definition cutoff (n i : nat) : nat := ceil_div n (2 ^ i).

(** Line 30: [histogramShared[j] += histogramShared[j + cutoff]] *)
Definition fold_pair (j c : nat) : M (list Z) unit :=
  a ← getitem j;
  b ← getitem (j + c);
  setitem j (a + b).

(** Lines 27-30, the loop nest, with the statement of its body as a
    parameter; [n] is [len(histogram)]. *)
Definition reduction_with (pair : nat → nat → M (list Z) unit) (n : nat)
  : M (list Z) unit :=
  k ← lift (ceil_log2 n);
  for_range 1 (k + 1) (λ i,
    for_range 0 (cutoff n i) (λ j, pair j (cutoff n i))).

(** Lines 27-30 as written. *)
Definition reduction (n : nat) : M (list Z) unit :=
  reduction_with fold_pair n.

(** Lines 25-30 on a histogram value: the weighted array after the
    reduction and how the reduction ended. *)
Definition histogramShared (histogram : list Z) : list Z * outcome unit :=
  reduction (length histogram) (weighted histogram).

(** What one pass of the loop prints. *)
Record report : Type := Report {
  pixels : Z;
  weighted_sum : Z;
  wla : R;
  wal : R
}.

Definition minLogLum : R := (-8.0)%R.
Definition maxLogLum : R := 3.5%R.
Definition inverseLogLumRange : R := (1.0 / (maxLogLum - minLogLum))%R.
Definition llr : R := (maxLogLum - minLogLum)%R.

(** The values of lines 35 and 42, where the floats stay in range. *)
Definition wla_of (w0 : Z) : R :=
  (IZR w0 / Rmax (IZR (1920 * 1080)) 1.0 - 1.0)%R.
Definition wal_of (a : R) : R :=
  Rpower 2 (((a / 254.0) * llr) + minLogLum)%R.

(** The least magnitude that no longer rounds to a float: halfway between
    the largest float, [2 ** 1024 - 2 ** 971], and [2 ** 1024]. *)
Definition float_overflow : Z := 2 ^ 1024 - 2 ^ 970.

(** Line 35: [histogramShared[0] / max(1920 * 1080, 1.0) - 1.0].  The
    maximum is the int [1920 * 1080], so the division is one of integers:
    it rounds the exact quotient and raises [OverflowError] when that
    leaves the float range. *)
Definition compute_wla {S} (w0 : Z) : M S R :=
  if decide (float_overflow * (1920 * 1080) ≤ Z.abs w0)
  then raise OverflowError
  else ret (wla_of w0).

(** Line 42: [2 ** (((wla / 254.0) * llr) + minLogLum)].  The power raises
    [OverflowError] when its value leaves the float range, that is when
    the exponent is 1024 or more. *)
Definition compute_wal {S} (a : R) : M S R :=
  if Rle_dec 1024 (((a / 254.0) * llr) + minLogLum)
  then raise OverflowError
  else ret (wal_of a).

(** Lines 14-42 for the histogram object at [histogram]. *)
Definition process (histogram : ref) : M heap report :=
  h ← load histogram;
  let pixels := sum h in
  ratios histogram pixels;;
  h ← load histogram;
  shared ← alloc (weighted h);
  n ← at_ref histogram len;
  at_ref shared (reduction n);;
  w0 ← at_ref shared (getitem 0);
  w0' ← at_ref shared (getitem 0);
  a ← compute_wla w0';
  w ← compute_wal a;
  ret (Report pixels w0 a w).

(** One pass of the loop on a histogram value, in a heap that holds
    nothing else. *)
Definition run (h : list Z) : heap * outcome report :=
  process 1%positive {[ 1%positive := h ]}.

(** ** The reduction with its fold window clamped

    The three definitions of this section are not code of [avg.py]: line
    30 has no guard.  They are the reduction as the specification words
    it (section 4.2, step 3), kept apart from [fold_pair], [reduction]
    and [histogramShared] above, to say what the specification expects
    where the script raises, and to reason about the levels whose
    partners are all in range, on which the two agree. *)

(** The specification's fold, not the script's:
    [weighted[j] += weighted[j + cutoff]] only when [j + cutoff < B], so
    that a missing partner contributes nothing. *)
Definition fold_pair_clamped (B j c : nat) : M (list Z) unit :=
  if decide (j + c < B)%nat then fold_pair j c else ret tt.

(** The specification's reduction: the levels and cutoffs of lines 27-30
    around the clamped fold. *)
Definition reduction_clamped (B : nat) : M (list Z) unit :=
  reduction_with (fold_pair_clamped B) B.

(** The weighted array the specification's reduction leaves. *)
Definition weighted_clamped (histogram : list Z) : list Z :=
  (reduction_clamped (length histogram) (weighted histogram)).1.

(** The single-pass weighted sum: the sum over [i] of [i * histogram[i]]. *)
Definition linear_weighted_sum (histogram : list Z) : Z :=
  sum (weighted histogram).

(** [w[0]], where the list has one. *)
Definition head0 (w : list Z) : Z := default 0 (w !! 0%nat).

(** ** The quantiser: [colorToBin] *)

(** [math.log2] *)
Definition math_log2 (x : R) : outcome R :=
  if Rlt_dec 0 x then Ok (ln x / ln 2)%R else Raise ValueError.

(** [int(x)] on a float: truncation towards zero. *)
Definition int_of_float (x : R) : Z :=
  if Rle_dec 0 x then Int_part x else - Int_part (- x).

(** Line 48: [lum = r * 0.21 + g * 0.71 + b * -0.07] *)
Definition lum (r g b : R) : R := (r * 0.21 + g * 0.71 + b * -0.07)%R.

(** Line 53: [min(max((math.log2(lum) - minLogLum) * inverseLogLumRange,
    0.0), 1.0)], given the value [l] of [math.log2(lum)]. *)
Definition logLum (l : R) : R :=
  Rmin (Rmax ((l - minLogLum) * inverseLogLumRange) 0.0) 1.0.

(** Lines 47-55.  The [print] of line 49 evaluates [math.log2(lum)] before
    the threshold test of line 50. *)
Definition colorToBin (r g b : R) : outcome Z :=
  obind (math_log2 (lum r g b)) (λ _,
  if Rlt_dec (lum r g b) 0.005 then Ok 0
  else
    obind (math_log2 (lum r g b)) (λ l,
    Ok (int_of_float (logLum l * 254.0 + 1.0)))).

(** ** The schedule of cutoffs

    The cutoffs of the levels [i = 1 .. ceil(log2 n)], in order. *)
Definition schedule (n : nat) : outcome (list nat) :=
  obind (ceil_log2 n) (λ k, Ok (cutoff n <$> seq 1 k)).

(** A schedule is halving for a list of length [n] whose live window is
    the first [m] entries when each cutoff [c] either splits the window
    in two ([2c = m]) or the window and [2c] both reach the end. *)
Fixpoint halving (n m : nat) (cs : list nat) : bool :=
  match cs with
  | [] => true
  | c :: cs' =>
      (bool_decide (c + c = m)%nat || bool_decide (n ≤ m ∧ n ≤ c + c)%nat)
      && halving n c cs'
  end.

(** Every partner index of every level lies inside a list of length [n]. *)
Definition in_range (n : nat) (cs : list nat) : bool :=
  forallb (λ c, bool_decide (c + c ≤ n)%nat) cs.

(** ** Inputs the properties speak of *)

(** The histogram with [histogram[k]] increased by [d], all other bins as
    they were. *)
Definition increase (k : nat) (d : Z) (histogram : list Z) : list Z :=
  alter (λ x, x + d) k histogram.

(** [bins] bins, all empty but bin [k], which holds [count] samples. *)
Definition single_bin (bins k : nat) (count : Z) : list Z :=
  <[k:=count]> (replicate bins 0).

(** ** Pre- and postconditions

    [hoare P m Q E]: from a state in [P], the statement [m] either ends
    normally with a value [a] in a state in [Q a], or raises in a state
    in [E]. *)
Definition hoare {S A} (P : S → Prop) (m : M S A)
    (Q : A → S → Prop) (E : S → Prop) : Prop :=
  ∀ s, P s → match m s with (s', Ok a) => Q a s' | (s', Raise _) => E s' end.

(** Every object of the heap [σ] is still in [s], with the value it had. *)
Definition keeps (σ s : heap) : Prop := σ ⊆ s.

(** ** The loop over the samples *)

(** Lines 10-43: [for histogram in samples: ...], the samples being the
    list objects line 8 appended. *)
Definition main_loop (samples : list ref) : M heap unit :=
  for_each samples (λ histogram, process histogram;; mret tt).

(** The printed values of a pass whose reduction left [w0] in
    [histogramShared[0]]. *)
Definition report_of (h : list Z) (w0 : Z) : report :=
  Report (sum h) w0 (wla_of w0) (wal_of (wla_of w0)).

(** How lines 33-42 end on that [w0]. *)
Definition report_outcome (h : list Z) (w0 : Z) : outcome report :=
  if decide (float_overflow * (1920 * 1080) ≤ Z.abs w0)
  then Raise OverflowError
  else if Rle_dec 1024 (((wla_of w0 / 254.0) * llr) + minLogLum)
  then Raise OverflowError
  else Ok (report_of h w0).

(** The integers among the printed values: the pixel count and the
    weighted sum. *)
Definition printed_ints (r : report) : Z * Z := (pixels r, weighted_sum r).

(** An outcome with its value, if it has one, passed through [f]. *)
Definition outcome_map {A B} (f : A → B) (o : outcome A) : outcome B :=
  match o with Ok a => Ok (f a) | Raise e => Raise e end.

(** Lists of non-negative counts. *)
Abbreviation nonneg := (Forall (λ x : Z, 0 ≤ x)).

(** * Properties *)

Example cutoff_255 :
  map (cutoff 255) (seq 1 8) = [128; 64; 32; 16; 8; 4; 2; 1]%nat.
Proof. vm_compute. reflexivity. Qed.

Example histogramShared_4 :
  histogramShared [5; 1; 2; 3] = ([14; 10; 4; 9], Ok tt).
Proof. vm_compute. reflexivity. Qed.

Example histogramShared_3 :
  histogramShared [5; 1; 2] = ([4; 1; 4], Raise IndexError).
Proof. vm_compute. reflexivity. Qed.

Example weighted_clamped_3 :
  weighted_clamped [5; 1; 2] = [5; 1; 4].
Proof. vm_compute. reflexivity. Qed.

(** ** Sequencing and loops *)

Section loops.
Context {S : Type}.
Implicit Types (s : S) (e : exn).

Lemma bind_run {A B} (m : M S A) (k : A → M S B) s :
  (m ≫= k) s =
  match m s with (s', Ok a) => k a s' | (s', Raise e) => (s', Raise e) end.
Proof. reflexivity. Qed.

Lemma bind_ok {A B} (m : M S A) (k : A → M S B) s s' a :
  m s = (s', Ok a) → (m ≫= k) s = k a s'.
Proof. intros E. rewrite bind_run, E. reflexivity. Qed.

Lemma bind_raise {A B} (m : M S A) (k : A → M S B) s s' e :
  m s = (s', Raise e) → (m ≫= k) s = (s', Raise e).
Proof. intros E. rewrite bind_run, E. reflexivity. Qed.

Lemma for_each_app {A} (xs ys : list A) (body : A → M S unit) s :
  for_each (xs ++ ys) body s =
  match for_each xs body s with
  | (s', Ok _) => for_each ys body s'
  | (s', Raise e) => (s', Raise e)
  end.
Proof.
  revert s. induction xs as [|x xs IH]; intros s; simpl.
  - reflexivity.
  - rewrite !bind_run. destruct (body x s) as [s1 [[]|e]]; [apply IH | reflexivity].
Qed.

(** A loop whose passes all end normally and keep an invariant. *)
Lemma for_each_inv {A} (P : S → Prop) (xs : list A) (body : A → M S unit) :
  (∀ x s, x ∈ xs → P s → ∃ s', body x s = (s', Ok tt) ∧ P s') →
  ∀ s, P s → ∃ s', for_each xs body s = (s', Ok tt) ∧ P s'.
Proof.
  induction xs as [|x xs IH]; intros Hb s Hs; simpl.
  - eauto.
  - destruct (Hb x s) as (s1 & E1 & H1); [left | done |].
    rewrite (bind_ok _ _ _ _ _ E1).
    apply IH; [|done]. intros y t Hy. apply Hb. by right.
Qed.

(** Two bodies that agree wherever the first ends normally. *)
Lemma for_each_sim {A} (P : S → Prop) (xs : list A) (b1 b2 : A → M S unit) :
  (∀ x s s', x ∈ xs → P s → b1 x s = (s', Ok tt) → b2 x s = (s', Ok tt) ∧ P s') →
  ∀ s s', P s → for_each xs b1 s = (s', Ok tt) →
          for_each xs b2 s = (s', Ok tt) ∧ P s'.
Proof.
  induction xs as [|x xs IH]; intros Hb s s' Hs; simpl.
  - intros [= <-]. done.
  - rewrite !bind_run. destruct (b1 x s) as [s1 [[]|e]] eqn:E1; [|done].
    destruct (Hb x s s1) as [E2 H1]; [left | done | done |].
    rewrite E2. apply IH; [|done]. intros y t t' Hy. apply Hb. by right.
Qed.

(** Two runs of one loop from related states stay related and end alike. *)
Lemma for_each_rel {A} (Rel : S → S → Prop) (xs : list A) (body : A → M S unit) :
  (∀ x s1 s2, Rel s1 s2 →
     Rel (body x s1).1 (body x s2).1 ∧ (body x s1).2 = (body x s2).2) →
  ∀ s1 s2, Rel s1 s2 →
    Rel (for_each xs body s1).1 (for_each xs body s2).1 ∧
    (for_each xs body s1).2 = (for_each xs body s2).2.
Proof.
  intros Hb. induction xs as [|x xs IH]; intros s1 s2 Hs; simpl.
  - done.
  - rewrite !bind_run. destruct (Hb x s1 s2 Hs) as [H1 H2].
    destruct (body x s1) as [t1 o1], (body x s2) as [t2 o2]; simpl in *.
    subst o2. destruct o1 as [[]|e]; [by apply IH | done].
Qed.

(** A loop that reaches a pass that raises ends there. *)
Lemma for_each_raise {A} (xs ys : list A) (x : A) (body : A → M S unit) s s1 s2 e :
  for_each xs body s = (s1, Ok tt) → body x s1 = (s2, Raise e) →
  for_each (xs ++ x :: ys) body s = (s2, Raise e).
Proof.
  intros E1 E2. rewrite for_each_app, E1. simpl.
  by rewrite (bind_raise _ _ _ _ _ E2).
Qed.

End loops.

(** ** Sums of prefixes *)

Lemma sum_app (u v : list Z) : sum (u ++ v) = sum u + sum v.
Proof. induction u as [|x u IH]; simpl; lia. Qed.

Lemma sum_take_S (w : list Z) (m : nat) :
  sum (take (S m) w) = sum (take m w) + default 0 (w !! m).
Proof.
  destruct (w !! m) as [x|] eqn:E.
  - rewrite (take_S_r _ _ _ E), sum_app. simpl. lia.
  - apply lookup_ge_None in E. rewrite !take_ge by lia. simpl. lia.
Qed.

Lemma sum_take_1 (w : list Z) : sum (take 1 w) = head0 w.
Proof. rewrite sum_take_S. unfold head0. simpl. lia. Qed.

Lemma sum_take_twice (w : list Z) (c : nat) :
  sum (take c w) + sum (take c (drop c w)) = sum (take (c + c) w).
Proof. by rewrite <- take_take_drop, sum_app. Qed.

(** ** One pair, one level *)

Lemma fold_pair_ok (j c : nat) (w : list Z) (a b : Z) :
  w !! j = Some a → w !! (j + c)%nat = Some b →
  fold_pair j c w = (<[j:=a + b]> w, Ok tt).
Proof.
  intros Ea Eb. unfold fold_pair, getitem, setitem.
  rewrite !bind_run, Ea. simpl. rewrite bind_run, Eb. simpl.
  apply lookup_lt_Some in Ea. by rewrite decide_True.
Qed.

(** A pair whose partner lies past the end raises [IndexError] and leaves
    the list as it was. *)
Lemma fold_pair_oob (j c : nat) (w : list Z) :
  w !! (j + c)%nat = None → fold_pair j c w = (w, Raise IndexError).
Proof.
  intros Eb. unfold fold_pair, getitem.
  rewrite bind_run. destruct (w !! j); simpl; [|done].
  by rewrite bind_run, Eb.
Qed.

Lemma fold_pair_ok_inv (j c : nat) (w w' : list Z) :
  fold_pair j c w = (w', Ok tt) →
  (j + c < length w)%nat ∧ length w' = length w.
Proof.
  destruct (w !! (j + c)%nat) as [b|] eqn:Eb.
  - destruct (w !! j) as [a|] eqn:Ea.
    + rewrite (fold_pair_ok _ _ _ _ _ Ea Eb). intros [= <-].
      rewrite length_insert. split; [by eapply lookup_lt_Some | done].
    + apply lookup_ge_None in Ea. apply lookup_lt_Some in Eb. lia.
  - by rewrite (fold_pair_oob _ _ _ Eb).
Qed.

(** The passes [j = 0 .. m-1] of one clamped level with cutoff [c]: they
    end normally, touch nothing from index [m] on, and add to the sum of
    the first [m] entries the partners the window holds. *)
Lemma level_clamped_prefix (c : nat) (w : list Z) (m : nat) :
  (m ≤ c)%nat →
  ∃ w', for_each (seq 0 m) (λ j, fold_pair_clamped (length w) j c) w = (w', Ok tt)
    ∧ length w' = length w
    ∧ (∀ i, (m ≤ i)%nat → w' !! i = w !! i)
    ∧ sum (take m w') = sum (take m w) + sum (take m (drop c w)).
Proof.
  induction m as [|m IH]; intros Hm.
  - exists w. simpl. done.
  - destruct IH as (w1 & E1 & L1 & F1 & S1); [lia|].
    rewrite seq_S, for_each_app, E1. simpl.
    rewrite bind_run. unfold fold_pair_clamped.
    destruct (decide (m + c < length w)%nat) as [Hin|Hout].
    + destruct (lookup_lt_is_Some_2 w m) as [a Ea]; [lia|].
      destruct (lookup_lt_is_Some_2 w (m + c)) as [b Eb]; [lia|].
      rewrite (fold_pair_ok m c w1 a b) by (rewrite F1 by lia; done).
      eexists. split; [reflexivity|].
      split; [by rewrite length_insert|].
      split.
      * intros i Hi. rewrite list_lookup_insert_ne by lia. apply F1. lia.
      * rewrite !sum_take_S.
        rewrite take_insert, decide_False by lia.
        rewrite S1, list_lookup_insert_eq by lia.
        rewrite lookup_drop, Ea, (Nat.add_comm c m), Eb. simpl. lia.
    + exists w1. split; [reflexivity|]. split; [done|].
      split; [intros i Hi; apply F1; lia|].
      rewrite !sum_take_S, S1, F1 by lia.
      rewrite lookup_drop.
      replace (w !! (c + m)%nat) with (@None Z)
        by (symmetry; apply lookup_ge_None; lia).
      simpl. lia.
Qed.

(** One clamped level with cutoff [c] moves the sum of the first [2c]
    entries into the first [c]. *)
Lemma level_clamped (c : nat) (w : list Z) :
  ∃ w', for_range 0 c (λ j, fold_pair_clamped (length w) j c) w = (w', Ok tt)
    ∧ length w' = length w
    ∧ sum (take c w') = sum (take (c + c) w).
Proof.
  destruct (level_clamped_prefix c w c) as (w' & E & L & _ & Hs); [done|].
  exists w'. unfold for_range. rewrite Nat.sub_0_r, E.
  by rewrite Hs, sum_take_twice.
Qed.

(** Where every partner of a level lies inside the list, the level as
    written does what the clamped one does. *)
Lemma level_in_range (c : nat) (w : list Z) :
  (c + c ≤ length w)%nat →
  for_range 0 c (λ j, fold_pair j c) w =
  for_range 0 c (λ j, fold_pair_clamped (length w) j c) w.
Proof.
  intros Hc. unfold for_range. rewrite Nat.sub_0_r.
  destruct (level_clamped_prefix c w c) as (w' & E & _); [done|].
  rewrite E. symmetry in E.
  destruct (for_each_sim (λ v, length v = length w) (seq 0 c)
              (λ j, fold_pair_clamped (length w) j c) (λ j, fold_pair j c))
    with (s := w) (s' := w') as [E' _]; [|done|done|done].
  intros j v v' Hj Hv. apply elem_of_seq in Hj.
  unfold fold_pair_clamped. rewrite decide_True by lia.
  intros Ev. split; [done|].
  apply fold_pair_ok_inv in Ev. lia.
Qed.

(** A level whose cutoff [c] has [2c] past the length of the list raises
    [IndexError]: the pass [j = len - c] reads index [len]. *)
Lemma level_oob (c : nat) (w : list Z) :
  (0 < c)%nat → (length w < c + c)%nat →
  (for_range 0 c (λ j, fold_pair j c) w).2 = Raise IndexError.
Proof.
  intros Hc Hlen. unfold for_range. rewrite Nat.sub_0_r.
  set (p := (length w - c)%nat).
  assert (Hp : (p < c)%nat) by (unfold p; lia).
  replace c with (p + S (c - S p))%nat at 1 by lia.
  rewrite seq_app. simpl.
  destruct (level_clamped_prefix c w p) as (w1 & E1 & L1 & _); [lia|].
  assert (E1' : for_each (seq 0 p) (λ j, fold_pair j c) w = (w1, Ok tt)).
  { destruct (for_each_sim (λ v, length v = length w) (seq 0 p)
                (λ j, fold_pair_clamped (length w) j c) (λ j, fold_pair j c))
      with (s := w) (s' := w1) as [E' _]; [|done|done|done].
    intros j v v' Hj Hv. apply elem_of_seq in Hj.
    unfold fold_pair_clamped. destruct (decide (j + c < length w)%nat).
    - intros Ev. split; [done|]. apply fold_pair_ok_inv in Ev. lia.
    - unfold p in *. lia. }
  erewrite for_each_raise; [reflexivity | exact E1' |].
  apply fold_pair_oob. apply lookup_ge_None. unfold p in *. lia.
Qed.

(** The passes [j = 0 .. m-1] of a level as written whose partners are
    all in range: entry [j] takes its partner in, and nothing from index
    [m] on is touched. *)
Lemma level_prefix (c : nat) (w : list Z) (m : nat) :
  (m ≤ c)%nat → (m + c ≤ length w)%nat →
  ∃ w', for_each (seq 0 m) (λ j, fold_pair j c) w = (w', Ok tt)
    ∧ length w' = length w
    ∧ (∀ i, (m ≤ i)%nat → w' !! i = w !! i)
    ∧ (∀ i a b, (i < m)%nat → w !! i = Some a → w !! (i + c)%nat = Some b →
                w' !! i = Some (a + b)).
Proof.
  induction m as [|m IH]; intros Hm Hl.
  - exists w. simpl. split; [done|]. split; [done|]. split; [done|]. lia.
  - destruct IH as (w1 & E1 & L1 & F1 & P1); [lia..|].
    destruct (lookup_lt_is_Some_2 w m) as [a Ea]; [lia|].
    destruct (lookup_lt_is_Some_2 w (m + c)) as [b Eb]; [lia|].
    rewrite seq_S, for_each_app, E1. simpl. rewrite bind_run.
    rewrite (fold_pair_ok m c w1 a b) by (rewrite F1 by lia; done).
    eexists. split; [reflexivity|].
    split; [by rewrite length_insert|]. split.
    + intros i Hi. rewrite list_lookup_insert_ne by lia. apply F1. lia.
    + intros i a' b' Hi Ea' Eb'. destruct (decide (i = m)) as [->|Hne].
      * rewrite list_lookup_insert_eq by lia. congruence.
      * rewrite list_lookup_insert_ne by lia. apply P1; (done || lia).
Qed.

(** ** The whole reduction along its schedule *)

Lemma for_each_fmap {S A B} (f : A → B) (xs : list A) (body : B → M S unit) (s : S) :
  for_each (f <$> xs) body s = for_each xs (λ x, body (f x)) s.
Proof.
  revert s. induction xs as [|x xs IH]; intros s; simpl; [done|].
  rewrite !bind_run. destruct (body (f x) s) as [s1 [[]|e]]; [apply IH | done].
Qed.

Lemma reduction_with_schedule pair (n : nat) (cs : list nat) (w : list Z) :
  schedule n = Ok cs →
  reduction_with pair n w =
  for_each cs (λ c, for_range 0 c (λ j, pair j c)) w.
Proof.
  unfold schedule, reduction_with. intros E.
  destruct (ceil_log2 n) as [k|e]; simpl in E; [|done].
  injection E as <-. rewrite bind_run. unfold lift.
  unfold for_range at 1. replace (k + 1 - 1)%nat with k by lia.
  by rewrite for_each_fmap.
Qed.

Lemma last_cons_default {A} (x d : A) (xs : list A) :
  List.last (x :: xs) d = List.last xs x.
Proof.
  revert x d. induction xs as [|y xs IH]; intros x d; [done|].
  change (List.last (x :: y :: xs) d) with (List.last (y :: xs) d).
  by rewrite (IH y d), (IH y x).
Qed.

(** Along a halving schedule the clamped levels end normally and carry the
    sum of the live window down to the last cutoff. *)
Lemma levels_clamped (cs : list nat) (w : list Z) (m : nat) :
  halving (length w) m cs = true →
  ∃ w', for_each cs (λ c, for_range 0 c (λ j, fold_pair_clamped (length w) j c)) w
        = (w', Ok tt)
    ∧ length w' = length w
    ∧ sum (take (List.last cs m) w') = sum (take m w).
Proof.
  revert w m. induction cs as [|c cs IH]; intros w m H.
  - exists w. done.
  - simpl in H. apply andb_prop in H as [Hc Hcs].
    destruct (level_clamped c w) as (w1 & E1 & L1 & S1).
    rewrite <- L1 in Hcs. destruct (IH w1 c Hcs) as (w' & E' & L' & S').
    exists w'. cbn [for_each]. rewrite (bind_ok _ _ _ _ _ E1).
    rewrite <- L1. split; [done|]. split; [lia|].
    rewrite last_cons_default, S', S1.
    apply orb_prop in Hc as [Hc|Hc].
    + apply bool_decide_eq_true in Hc. by rewrite Hc.
    + apply bool_decide_eq_true in Hc. by rewrite !take_ge by lia.
Qed.

(** Where the schedule keeps every partner inside the list, the levels as
    written are the clamped ones. *)
Lemma levels_in_range (cs : list nat) (w : list Z) :
  in_range (length w) cs = true →
  for_each cs (λ c, for_range 0 c (λ j, fold_pair j c)) w =
  for_each cs (λ c, for_range 0 c (λ j, fold_pair_clamped (length w) j c)) w.
Proof.
  revert w. induction cs as [|c cs IH]; intros w H; [done|].
  simpl in H. apply andb_prop in H as [Hc Hcs].
  apply bool_decide_eq_true in Hc.
  cbn [for_each]. rewrite !bind_run, (level_in_range c w Hc).
  destruct (level_clamped c w) as (w1 & E1 & L1 & _). rewrite E1.
  rewrite <- L1 in *. by apply IH.
Qed.

(** The clamped reduction computes the linear weighted sum for every bin
    count whose schedule is halving and ends in cutoff 1. *)
Lemma reduction_clamped_sum (h : list Z) (cs : list nat) :
  schedule (length h) = Ok cs →
  halving (length h) (length h) cs = true →
  List.last cs (length h) = 1%nat →
  (reduction_clamped (length h) (weighted h)).2 = Ok tt ∧
  head0 (weighted_clamped h) = linear_weighted_sum h ∧
  length (weighted_clamped h) = length h.
Proof.
  intros Hs Hh Hl. unfold weighted_clamped, reduction_clamped.
  rewrite (reduction_with_schedule _ _ _ _ Hs).
  assert (Lw : length (weighted h) = length h) by apply length_imap.
  rewrite <- Lw in Hh.
  destruct (levels_clamped cs (weighted h) _ Hh) as (w' & E & L & Hsum).
  rewrite Lw in E, Hsum. rewrite E. simpl. split; [done|]. split; [|lia].
  rewrite Hl, sum_take_1 in Hsum. rewrite Hsum.
  unfold linear_weighted_sum. by rewrite take_ge by lia.
Qed.

(** The reduction as written does the same wherever its schedule keeps
    every partner inside the list. *)
Lemma reduction_in_range (h : list Z) (cs : list nat) :
  schedule (length h) = Ok cs →
  in_range (length h) cs = true →
  histogramShared h = reduction_clamped (length h) (weighted h).
Proof.
  intros Hs Hr. unfold histogramShared, reduction, reduction_clamped.
  rewrite !(reduction_with_schedule _ _ _ _ Hs).
  assert (Lw : length (weighted h) = length h) by apply length_imap.
  rewrite <- Lw in Hr. rewrite (levels_in_range _ _ Hr). by rewrite Lw.
Qed.

(** On 256 bins the reduction as written ends normally with the linear
    weighted sum in [histogramShared[0]]. *)
Lemma histogramShared_256 (h : list Z) :
  length h = 256%nat →
  (histogramShared h).2 = Ok tt ∧
  head0 (histogramShared h).1 = linear_weighted_sum h ∧
  length (histogramShared h).1 = 256%nat.
Proof.
  intros L.
  assert (Hs : schedule (length h) = Ok [128; 64; 32; 16; 8; 4; 2; 1]%nat)
    by (rewrite L; vm_compute; reflexivity).
  rewrite (reduction_in_range h _ Hs) by (rewrite L; vm_compute; reflexivity).
  destruct (reduction_clamped_sum h _ Hs) as (H1 & H2 & H3);
    [rewrite L; vm_compute; reflexivity .. |].
  unfold weighted_clamped in H2, H3. by rewrite H3.
Qed.

(** On 255 bins the first level of the reduction as written raises
    [IndexError]. *)
Lemma reduction_255_raises (w : list Z) :
  length w = 255%nat → (reduction 255 w).2 = Raise IndexError.
Proof.
  intros L. unfold reduction.
  rewrite (reduction_with_schedule _ _ [128; 64; 32; 16; 8; 4; 2; 1]%nat)
    by (vm_compute; reflexivity).
  cbn [for_each]. rewrite bind_run.
  pose proof (level_oob 128 w) as H.
  destruct (for_range 0 128 (λ j, fold_pair j 128) w) as [w1 o].
  simpl in H. rewrite H by lia. done.
Qed.

(** ** Where the floats of lines 35 and 42 overflow *)

(** The exponent of line 42 reaches 1024 when [histogramShared[0]] reaches
    47267171061. *)
Lemma exponent_overflow (w0 : Z) :
  (1024 <= ((wla_of w0 / 254.0) * llr) + minLogLum)%R ↔ 47267171061 ≤ w0.
Proof.
  unfold wla_of, llr, maxLogLum, minLogLum. change (1920 * 1080) with 2073600.
  rewrite Rmax_left by lra.
  split; intros H.
  - assert (H' : (IZR 1087144934400 <= IZR (23 * w0))%R)
      by (rewrite mult_IZR; lra).
    apply le_IZR in H'. lia.
  - assert (H' : 1087144934403 ≤ 23 * w0) by lia.
    apply IZR_le in H'. rewrite mult_IZR in H'. lra.
Qed.

(** A non-negative [histogramShared[0]] below 47267171061 is printed with
    the two values computed from it; from there on the pass raises
    [OverflowError], in line 42 or, when the quotient itself is no float,
    in line 35. *)
Lemma report_outcome_nonneg (h : list Z) (w0 : Z) :
  0 ≤ w0 →
  report_outcome h w0 =
    if decide (w0 < 47267171061) then Ok (report_of h w0)
    else Raise OverflowError.
Proof.
  intros H0. unfold report_outcome.
  assert (Hf : 47267171061 < float_overflow * (1920 * 1080))
    by (vm_compute; reflexivity).
  destruct (decide (float_overflow * (1920 * 1080) ≤ Z.abs w0)) as [Ho|Ho].
  - rewrite decide_False by lia. done.
  - destruct (Rle_dec _ _) as [He|He].
    + apply exponent_overflow in He. by rewrite decide_False by lia.
    + rewrite decide_True; [done|].
      destruct (decide (w0 < 47267171061)) as [|Hn]; [done|].
      exfalso. apply He, exponent_overflow. lia.
Qed.

Lemma report_outcome_ok_inv (h : list Z) (w0 : Z) (r : report) :
  report_outcome h w0 = Ok r → r = report_of h w0.
Proof.
  unfold report_outcome. case_decide; [done|].
  destruct (Rle_dec _ _); [done|]. by intros [= <-].
Qed.

(** ** Statements on the heap *)

Lemma at_ref_run {A} (l : ref) (m : M (list Z) A) (σ : heap) (w : list Z) :
  σ !! l = Some w → at_ref l m σ = (<[l:=(m w).1]> σ, (m w).2).
Proof. intros E. unfold at_ref. rewrite E. by destruct (m w). Qed.

(** A statement that only reads its list leaves the heap as it was. *)
Lemma at_ref_read {A} (l : ref) (m : M (list Z) A) (σ : heap) (w : list Z) :
  σ !! l = Some w → (m w).1 = w → at_ref l m σ = (σ, (m w).2).
Proof. intros E Hm. rewrite (at_ref_run _ _ _ _ E), Hm. by rewrite insert_id. Qed.

Lemma at_ref_getitem (l : ref) (i : nat) (σ : heap) (w : list Z) (x : Z) :
  σ !! l = Some w → w !! i = Some x → at_ref l (getitem i) σ = (σ, Ok x).
Proof.
  intros E Ei. rewrite (at_ref_read _ _ _ _ E) by done.
  unfold getitem. by rewrite Ei.
Qed.

Lemma load_run (l : ref) (σ : heap) (w : list Z) :
  σ !! l = Some w → load l σ = (σ, Ok w).
Proof. intros E. unfold load. by rewrite E. Qed.

(** The ratio loop ends normally on at least 255 bins with a non-zero
    pixel count, and changes nothing. *)
Lemma ratios_ok (l : ref) (σ : heap) (h : list Z) (p : Z) :
  σ !! l = Some h → (255 ≤ length h)%nat → p ≠ 0 →
  ratios l p σ = (σ, Ok tt).
Proof.
  intros E L Hp. unfold ratios, for_range.
  destruct (for_each_inv (λ s : heap, s = σ) (seq 0 (255 - 0))
    (λ i, x ← at_ref l (getitem i); true_div x p;;
          at_ref l (getitem i);; mret tt)) with (s := σ)
    as (s' & E' & ->); [|done|done].
  intros i s Hi ->. apply elem_of_seq in Hi.
  destruct (lookup_lt_is_Some_2 h i) as [x Ex]; [lia|].
  exists σ. split; [|done].
  rewrite (bind_ok _ _ _ _ _ (at_ref_getitem _ _ _ _ _ E Ex)).
  unfold true_div. rewrite decide_False by done.
  rewrite bind_run. simpl.
  by rewrite (bind_ok _ _ _ _ _ (at_ref_getitem _ _ _ _ _ E Ex)).
Qed.

(** With a zero pixel count the first ratio raises [ZeroDivisionError]. *)
Lemma ratios_zero (l : ref) (σ : heap) (h : list Z) :
  σ !! l = Some h → (0 < length h)%nat →
  ratios l 0 σ = (σ, Raise ZeroDivisionError).
Proof.
  intros E L. unfold ratios, for_range.
  change (seq 0 (255 - 0)) with ([] ++ 0%nat :: seq 1 254).
  destruct (lookup_lt_is_Some_2 h 0) as [x Ex]; [lia|].
  eapply for_each_raise; [reflexivity|].
  rewrite (bind_ok _ _ _ _ _ (at_ref_getitem _ _ _ _ _ E Ex)).
  reflexivity.
Qed.

(** One pass of the loop on an empty histogram of at least one bin. *)
Lemma process_zero (l : ref) (σ : heap) (h : list Z) :
  σ !! l = Some h → (0 < length h)%nat → sum h = 0 →
  process l σ = (σ, Raise ZeroDivisionError).
Proof.
  intros E L Hs. unfold process.
  rewrite (bind_ok _ _ _ _ _ (load_run _ _ _ E)). simpl. rewrite Hs.
  by rewrite (bind_raise _ _ _ _ _ (ratios_zero _ _ _ E L)).
Qed.

(** One pass of the loop on at least 255 bins with a non-zero sum: the
    weighted array is a new object, and the pass ends as the reduction
    does. *)
Lemma process_run (l : ref) (σ : heap) (h : list Z) :
  σ !! l = Some h → (255 ≤ length h)%nat → sum h ≠ 0 →
  process l σ =
  (<[fresh (dom σ) := (histogramShared h).1]> σ,
   match (histogramShared h).2 with
   | Raise e => Raise e
   | Ok _ =>
       match (histogramShared h).1 !! 0%nat with
       | Some w0 => report_outcome h w0
       | None => Raise IndexError
       end
   end).
Proof.
  intros E L Hs. unfold process.
  rewrite (bind_ok _ _ _ _ _ (load_run _ _ _ E)). simpl.
  rewrite (bind_ok _ _ _ _ _ (ratios_ok _ _ _ _ E L Hs)).
  rewrite (bind_ok _ _ _ _ _ (load_run _ _ _ E)).
  rewrite bind_run. unfold alloc. simpl.
  set (ls := fresh (dom σ)).
  assert (Hls : σ !! ls = None) by (apply not_elem_of_dom, is_fresh).
  assert (Hne : ls ≠ l) by congruence.
  set (σ1 := <[ls:=weighted h]> σ).
  assert (E1 : σ1 !! l = Some h) by (unfold σ1; by rewrite lookup_insert_ne).
  assert (Es : σ1 !! ls = Some (weighted h)) by apply lookup_insert_eq.
  rewrite (bind_ok _ _ σ1 σ1 (length h)) by (by rewrite (at_ref_read _ _ _ _ E1)).
  rewrite bind_run, (at_ref_run _ _ _ _ Es).
  fold (histogramShared h). unfold σ1. rewrite insert_insert_eq.
  destruct (histogramShared h) as [w' [[]|e]]; simpl; [|done].
  set (σ2 := <[ls:=w']> σ).
  assert (E2 : σ2 !! ls = Some w') by apply lookup_insert_eq.
  rewrite bind_run, (at_ref_read _ _ _ _ E2) by done.
  unfold getitem at 1. simpl. destruct (w' !! 0%nat) as [w0|] eqn:E0; [|done].
  rewrite bind_run, (at_ref_read _ _ _ _ E2) by done.
  unfold getitem. simpl. rewrite E0.
  unfold report_outcome, compute_wla, compute_wal.
  rewrite bind_run. case_decide; [done|]. cbn [ret].
  rewrite bind_run. by destruct (Rle_dec _ _).
Qed.

(** ** Rules for pre- and postconditions *)

Section hoare_rules.
Context {S : Type}.
Implicit Types (P E : S → Prop).

Lemma hoare_ret {A} P E (a : A) : hoare P (mret a) (λ _, P) E.
Proof. intros s Hs. exact Hs. Qed.

Lemma hoare_bind {A B} P E (Q : A → S → Prop) (Q' : B → S → Prop)
    (m : M S A) (k : A → M S B) :
  hoare P m Q E → (∀ a, hoare (Q a) (k a) Q' E) → hoare P (m ≫= k) Q' E.
Proof.
  intros Hm Hk s Hs. rewrite bind_run. specialize (Hm s Hs).
  destruct (m s) as [s1 [a|e]]; [by apply Hk | done].
Qed.

Lemma hoare_post {A} P E (Q Q' : A → S → Prop) (m : M S A) :
  hoare P m Q E → (∀ a s, Q a s → Q' a s) → hoare P m Q' E.
Proof.
  intros Hm HQ s Hs. specialize (Hm s Hs).
  destruct (m s) as [s1 [a|e]]; [by apply HQ | done].
Qed.

Lemma hoare_for_each {A} P (xs : list A) (body : A → M S unit) :
  (∀ x, hoare P (body x) (λ _, P) P) → hoare P (for_each xs body) (λ _, P) P.
Proof.
  intros Hb. induction xs as [|x xs IH]; simpl.
  - apply hoare_ret.
  - eapply hoare_bind; [apply Hb | intros ?; apply IH].
Qed.

(** A statement that never changes the state. *)
Lemma hoare_pure {A} P (m : M S A) :
  (∀ s, (m s).1 = s) → hoare P m (λ _, P) P.
Proof.
  intros Hm s Hs. specialize (Hm s).
  destruct (m s) as [s1 [a|e]]; simpl in Hm; by subst.
Qed.

End hoare_rules.

(** ** The frame of one pass: the objects of the heap it started in *)

Section frame.
Context (σ : heap).

Lemma at_ref_reads_keeps {A} (l : ref) (m : M (list Z) A) :
  (∀ w, (m w).1 = w) → hoare (keeps σ) (at_ref l m) (λ _, keeps σ) (keeps σ).
Proof.
  intros Hm. apply hoare_pure. intros s. unfold at_ref.
  destruct (s !! l) as [w|] eqn:E; [|done].
  specialize (Hm w). destruct (m w) as [w' r]; simpl in *. subst.
  by rewrite insert_id.
Qed.

Lemma at_ref_outside_keeps {A} (l : ref) (m : M (list Z) A) :
  σ !! l = None → hoare (keeps σ) (at_ref l m) (λ _, keeps σ) (keeps σ).
Proof.
  intros Hl s Hs. unfold at_ref. destruct (s !! l) as [w|] eqn:E; [|done].
  destruct (m w) as [w' [a|e]]; by apply insert_subseteq_r.
Qed.

Lemma load_keeps (l : ref) : hoare (keeps σ) (load l) (λ _, keeps σ) (keeps σ).
Proof. apply hoare_pure. intros s. unfold load. by destruct (s !! l). Qed.

Lemma true_div_keeps (x y : Z) :
  hoare (keeps σ) (true_div x y) (λ _, keeps σ) (keeps σ).
Proof. apply hoare_pure. intros s. unfold true_div. by case_decide. Qed.

Lemma compute_wla_keeps (w0 : Z) :
  hoare (keeps σ) (compute_wla w0) (λ _, keeps σ) (keeps σ).
Proof. apply hoare_pure. intros s. unfold compute_wla. by case_decide. Qed.

Lemma compute_wal_keeps (a : R) :
  hoare (keeps σ) (compute_wal a) (λ _, keeps σ) (keeps σ).
Proof.
  apply hoare_pure. intros s. unfold compute_wal. by destruct (Rle_dec _ _).
Qed.

(** A new object is none of the objects of [σ]. *)
Lemma alloc_keeps (v : list Z) :
  hoare (keeps σ) (alloc v) (λ l s, keeps σ s ∧ σ !! l = None) (keeps σ).
Proof.
  intros s Hs. unfold alloc. simpl.
  assert (Hf : s !! fresh (dom s) = None) by (apply not_elem_of_dom, is_fresh).
  split.
  - by apply insert_subseteq_r; [eapply lookup_weaken_None|].
  - by eapply lookup_weaken_None.
Qed.

Lemma ratios_keeps (l : ref) (p : Z) :
  hoare (keeps σ) (ratios l p) (λ _, keeps σ) (keeps σ).
Proof.
  apply hoare_for_each. intros i.
  eapply hoare_bind; [by apply at_ref_reads_keeps | intros x].
  eapply hoare_bind; [apply true_div_keeps | intros ?].
  eapply hoare_bind; [by apply at_ref_reads_keeps | intros ?].
  apply hoare_ret.
Qed.

Lemma process_keeps (l : ref) : hoare (keeps σ) (process l) (λ _, keeps σ) (keeps σ).
Proof.
  unfold process.
  eapply hoare_bind; [apply load_keeps | intros h].
  eapply hoare_bind; [apply ratios_keeps | intros ?].
  eapply hoare_bind; [apply load_keeps | intros h'].
  eapply hoare_bind; [apply alloc_keeps | intros shared].
  intros s [Hs Hnew]. revert s Hs.
  change (hoare (keeps σ)
    (n ← at_ref l len; at_ref shared (reduction n);;
     w0 ← at_ref shared (getitem 0); w0' ← at_ref shared (getitem 0);
     a ← compute_wla w0'; w ← compute_wal a;
     mret (Report (sum h) w0 a w))
    (λ _, keeps σ) (keeps σ)).
  eapply hoare_bind; [by apply at_ref_reads_keeps | intros n].
  eapply hoare_bind; [by apply at_ref_outside_keeps | intros ?].
  eapply hoare_bind; [by apply at_ref_reads_keeps | intros w0].
  eapply hoare_bind; [by apply at_ref_reads_keeps | intros w0'].
  eapply hoare_bind; [apply compute_wla_keeps | intros ?].
  eapply hoare_bind; [apply compute_wal_keeps | intros ?].
  apply hoare_ret.
Qed.

End frame.

(** ** Monotonicity of the folds *)

Lemma head0_mono (u v : list Z) : Forall2 Z.le u v → head0 u ≤ head0 v.
Proof. intros [|x y u' v' Hxy _]; unfold head0; simpl; lia. Qed.

Lemma fold_pair_mono (j c : nat) (u v : list Z) :
  Forall2 Z.le u v →
  Forall2 Z.le (fold_pair j c u).1 (fold_pair j c v).1 ∧
  (fold_pair j c u).2 = (fold_pair j c v).2.
Proof.
  intros H. pose proof (Forall2_length _ _ _ H) as L.
  destruct (u !! (j + c)%nat) as [b|] eqn:Eb.
  - pose proof (lookup_lt_Some _ _ _ Eb) as Hb.
    destruct (lookup_lt_is_Some_2 v (j + c)) as [b' Eb']; [lia|].
    destruct (lookup_lt_is_Some_2 u j) as [a Ea]; [lia|].
    destruct (lookup_lt_is_Some_2 v j) as [a' Ea']; [lia|].
    rewrite (fold_pair_ok _ _ _ _ _ Ea Eb), (fold_pair_ok _ _ _ _ _ Ea' Eb').
    simpl. split; [|done]. apply Forall2_insert; [done|].
    pose proof (Forall2_lookup_lr _ _ _ _ _ _ H Ea Ea').
    pose proof (Forall2_lookup_lr _ _ _ _ _ _ H Eb Eb'). lia.
  - assert (Eb' : v !! (j + c)%nat = None)
      by (apply lookup_ge_None; apply lookup_ge_None in Eb; lia).
    by rewrite (fold_pair_oob _ _ _ Eb), (fold_pair_oob _ _ _ Eb').
Qed.

Lemma fold_pair_clamped_mono (B j c : nat) (u v : list Z) :
  Forall2 Z.le u v →
  Forall2 Z.le (fold_pair_clamped B j c u).1 (fold_pair_clamped B j c v).1 ∧
  (fold_pair_clamped B j c u).2 = (fold_pair_clamped B j c v).2.
Proof.
  intros H. unfold fold_pair_clamped. case_decide; [by apply fold_pair_mono | done].
Qed.

(** The loop nest is monotone whenever the statement of its body is. *)
Lemma reduction_with_mono pair (n : nat) (u v : list Z) :
  (∀ j c u v, Forall2 Z.le u v →
     Forall2 Z.le (pair j c u).1 (pair j c v).1 ∧ (pair j c u).2 = (pair j c v).2) →
  Forall2 Z.le u v →
  Forall2 Z.le (reduction_with pair n u).1 (reduction_with pair n v).1 ∧
  (reduction_with pair n u).2 = (reduction_with pair n v).2.
Proof.
  intros Hp H. unfold reduction_with. rewrite !bind_run. unfold lift.
  destruct (ceil_log2 n) as [k|e]; [|done].
  apply for_each_rel; [|done]. intros i u1 v1 H1.
  apply for_each_rel; [|done]. intros j u2 v2 H2. by apply Hp.
Qed.

Lemma weighted_increase_mono (k : nat) (d : Z) (h : list Z) :
  0 ≤ d → Forall2 Z.le (weighted h) (weighted (increase k d h)).
Proof.
  intros Hd. apply Forall2_same_length_lookup. unfold weighted, increase. split.
  - by rewrite !length_imap, length_alter.
  - intros i x y. rewrite !list_lookup_imap, list_lookup_alter.
    destruct (h !! i) as [a|] eqn:Ea; simpl; [|done].
    case_decide as Hk.
    + subst i. rewrite Ea. simpl. intros [= <-] [= <-]. nia.
    + simpl. intros [= <-] [= <-]. lia.
Qed.

(** ** Histograms with samples in one bin *)

Lemma sum_replicate_0 (k : nat) : sum (replicate k 0) = 0.
Proof. induction k as [|k IH]; simpl; [done | by rewrite IH]. Qed.

Lemma sum_imap_zeros (f : nat → Z → Z) (l : list Z) :
  Forall (λ y, y = 0) l → (∀ i, f i 0 = 0) → sum (imap f l) = 0.
Proof.
  intros Hl. revert f. induction Hl as [|y l -> _ IH]; intros f Hf; simpl; [done|].
  rewrite Hf, IH; [done|]. intros i. apply Hf.
Qed.

Lemma sum_bin0 (k : nat) (x : Z) : sum (single_bin (S k) 0 x) = x.
Proof.
  unfold single_bin. simpl. fold (sum (replicate k 0)).
  rewrite sum_replicate_0. lia.
Qed.

Lemma linear_weighted_sum_bin0 (k : nat) (x : Z) :
  linear_weighted_sum (single_bin (S k) 0 x) = 0.
Proof.
  unfold linear_weighted_sum, weighted, single_bin. simpl.
  fold (sum (imap ((λ i y, y * Z.of_nat i) ∘ S) (replicate k 0))).
  rewrite sum_imap_zeros; [lia | | done].
  apply Forall_forall. intros y Hy. by apply elem_of_replicate in Hy as [-> _].
Qed.

Lemma wla_of_0 : wla_of 0 = (-1)%R.
Proof.
  unfold wla_of. change (1920 * 1080) with 2073600.
  rewrite Rmax_left by lra. lra.
Qed.

(** ** The reduction on 255 bins *)

Lemma reduction_clamped_255 (h : list Z) :
  length h = 255%nat →
  (reduction_clamped 255 (weighted h)).2 = Ok tt ∧
  head0 (weighted_clamped h) = linear_weighted_sum h.
Proof.
  intros L.
  assert (Hs : schedule (length h) = Ok [128; 64; 32; 16; 8; 4; 2; 1]%nat)
    by (rewrite L; vm_compute; reflexivity).
  rewrite <- L at 1.
  destruct (reduction_clamped_sum h _ Hs) as (H1 & H2 & _);
    [rewrite L; vm_compute; reflexivity .. | done].
Qed.

Lemma histogramShared_255_raises (h : list Z) :
  length h = 255%nat → (histogramShared h).2 = Raise IndexError.
Proof.
  intros L. unfold histogramShared. rewrite L. apply reduction_255_raises.
  unfold weighted. by rewrite length_imap.
Qed.

(** What the reduction as written leaves on 255 bins: the passes
    [j = 0 .. 126] of the first level are done when [j = 127] raises, so
    [histogramShared[0]] holds [0 * histogram[0] + 128 * histogram[128]]. *)
Lemma histogramShared_255_state (h : list Z) :
  length h = 255%nat →
  (histogramShared h).2 = Raise IndexError ∧
  head0 (histogramShared h).1 = 128 * default 0 (h !! 128%nat).
Proof.
  intros L.
  assert (Lw : length (weighted h) = 255%nat)
    by (unfold weighted; by rewrite length_imap).
  unfold histogramShared, reduction. rewrite L.
  rewrite (reduction_with_schedule _ _ [128; 64; 32; 16; 8; 4; 2; 1]%nat)
    by (vm_compute; reflexivity).
  destruct (level_prefix 128 (weighted h) 127) as (w1 & E1 & L1 & _ & P1);
    [lia..|].
  assert (Ef : for_range 0 128 (λ j, fold_pair j 128) (weighted h)
               = (w1, Raise IndexError)).
  { unfold for_range.
    change (seq 0 (128 - 0)) with (seq 0 127 ++ [127%nat]).
    eapply for_each_raise; [exact E1|].
    apply fold_pair_oob, lookup_ge_None. lia. }
  cbn [for_each]. rewrite bind_run, Ef. cbn [fst snd]. split; [done|].
  destruct (lookup_lt_is_Some_2 h 0) as [x0 E0]; [lia|].
  destruct (lookup_lt_is_Some_2 h 128) as [x128 E128]; [lia|].
  assert (P0 : w1 !! 0%nat = Some (x0 * 0 + x128 * 128)).
  { apply P1; [lia|..]; cbn [Nat.add]; unfold weighted;
      rewrite list_lookup_imap.
    - by rewrite E0.
    - by rewrite E128. }
  unfold head0. rewrite P0, E128. simpl. lia.
Qed.

(** One pass of the loop on 255 bins never ends normally. *)
Lemma process_255 (σ : heap) (l : ref) (h : list Z) :
  σ !! l = Some h → length h = 255%nat →
  (process l σ).2 =
    Raise (if decide (sum h = 0) then ZeroDivisionError else IndexError).
Proof.
  intros E L. case_decide as Hz.
  - by rewrite (process_zero _ _ _ E) by (done || lia).
  - rewrite (process_run _ _ _ E) by (done || lia).
    cbn [snd]. by rewrite (histogramShared_255_raises _ L).
Qed.

(** The scenario of 2 073 600 samples in bin 128. *)
Lemma linear_weighted_sum_scenario (bins : nat) :
  (128 < bins)%nat →
  linear_weighted_sum (single_bin bins 128 2073600) = 265420800.
Proof.
  intros Hb. unfold linear_weighted_sum, weighted, single_bin.
  replace bins with (128 + S (bins - 129))%nat by lia.
  rewrite replicate_add, insert_app_r_alt by (rewrite length_replicate; lia).
  rewrite length_replicate, Nat.sub_diag. simpl insert.
  rewrite imap_app, sum_app, length_replicate. simpl imap at 2.
  cbn [sum foldr]. fold (sum (imap ((λ i x, x * Z.of_nat i) ∘ Nat.add 128 ∘ S)
                                (replicate (bins - 129) 0))).
  rewrite !sum_imap_zeros; [lia | | done | | done];
    apply Forall_forall; intros y Hy; by apply elem_of_replicate in Hy as [-> _].
Qed.

Lemma wla_of_scenario : wla_of 265420800 = 127%R.
Proof.
  unfold wla_of. change (1920 * 1080) with 2073600.
  rewrite Rmax_left by lra. lra.
Qed.

Lemma wal_of_scenario : wal_of 127 = Rpower 2 (-2.25).
Proof. unfold wal_of, llr, minLogLum, maxLogLum. f_equal. lra. Qed.

(** ** The claims on the reduction *)

(** C1, as the script has it.  On every histogram of 255 bins the
    reduction of lines 25-30 does not reach the single-pass weighted sum:
    line 30 has no clamp, so the first level (cutoff 128) raises
    [IndexError] at [j = 127], and what it leaves in
    [histogramShared[0]] is the one fold done on it,
    [128 * histogram[128]], not the sum over [i] of [i * histogram[i]]. *)
Theorem reduction_255_stops_before_sum (histogram : list Z) :
  length histogram = 255%nat →
  (histogramShared histogram).2 = Raise IndexError ∧
  head0 (histogramShared histogram).1 = 128 * default 0 (histogram !! 128%nat).
Proof. apply histogramShared_255_state. Qed.

(** On 255 bins of one sample each the script leaves 128 where the sum of
    [i * histogram[i]] is 32385. *)
Lemma reduction_255_stops_before_sum_witness :
  (histogramShared (replicate 255 1)).2 = Raise IndexError ∧
  head0 (histogramShared (replicate 255 1)).1 = 128 ∧
  linear_weighted_sum (replicate 255 1) = 32385.
Proof.
  destruct (reduction_255_stops_before_sum (replicate 255 1) eq_refl) as [H1 H2].
  split; [exact H1|]. split; [exact H2|]. vm_compute. reflexivity.
Defined.

(** C7. Increasing one bin [k > 0] of a histogram by a positive integer,
    all other bins fixed, never decreases the reduced weighted sum
    [weighted[0]]: the reduction as written ends the same way on both
    histograms with [histogramShared[0]] no smaller on the increased one,
    and so does the clamped reduction. *)
Theorem weighted_sum_monotone (histogram : list Z) (k : nat) (d : Z) :
  (0 < k)%nat → 0 < d →
  (histogramShared histogram).2 = (histogramShared (increase k d histogram)).2 ∧
  head0 (histogramShared histogram).1
    ≤ head0 (histogramShared (increase k d histogram)).1 ∧
  head0 (weighted_clamped histogram)
    ≤ head0 (weighted_clamped (increase k d histogram)).
Proof.
  intros _ Hd.
  assert (Hw := weighted_increase_mono k d histogram ltac:(lia)).
  unfold histogramShared, weighted_clamped, reduction, reduction_clamped, increase.
  rewrite length_alter. fold (increase k d histogram).
  destruct (reduction_with_mono fold_pair (length histogram) _ _ fold_pair_mono Hw)
    as [H1 H2].
  destruct (reduction_with_mono (fold_pair_clamped (length histogram))
              (length histogram) _ _ (fold_pair_clamped_mono _) Hw) as [H3 _].
  split; [done|]. split; by apply head0_mono.
Qed.

Lemma weighted_sum_monotone_witness :
  head0 (histogramShared [5; 1; 2; 3]).1
    ≤ head0 (histogramShared (increase 2 4 [5; 1; 2; 3])).1.
Proof.
  exact (proj1 (proj2 (weighted_sum_monotone [5; 1; 2; 3] 2 4
                         ltac:(lia) ltac:(lia)))).
Defined.

(** C9. On every histogram of exactly 255 bins the reduction as written
    reads [histogramShared[j + cutoff]] at [j + cutoff = 255] in its first
    level (i = 1, cutoff = ceil(255/2) = 128, j = 127), one past the last
    index 254, the partners of all earlier [j] being in range; so the
    reduction raises [IndexError], and one pass of the loop never ends
    normally on 255 bins. *)
Theorem reduction_255_index_error (histogram : list Z) :
  length histogram = 255%nat →
  cutoff 255 1 = 128%nat ∧
  (∀ j, (j < 127)%nat → is_Some (weighted histogram !! (j + cutoff 255 1)%nat)) ∧
  weighted histogram !! (127 + cutoff 255 1)%nat = None ∧
  (histogramShared histogram).2 = Raise IndexError ∧
  (run histogram).2 =
    Raise (if decide (sum histogram = 0) then ZeroDivisionError else IndexError).
Proof.
  intros L.
  assert (Lw : length (weighted histogram) = 255%nat)
    by (unfold weighted; by rewrite length_imap).
  assert (Hc : cutoff 255 1 = 128%nat) by (vm_compute; reflexivity).
  rewrite Hc. split; [done|]. split; [|split; [|split]].
  - intros j Hj. apply lookup_lt_is_Some. lia.
  - apply lookup_ge_None. lia.
  - by apply histogramShared_255_raises.
  - apply process_255; [apply lookup_singleton_eq | done].
Qed.

Lemma reduction_255_index_error_witness :
  (histogramShared (single_bin 255 128 2073600)).2 = Raise IndexError.
Proof.
  exact (proj1 (proj2 (proj2 (proj2
    (reduction_255_index_error (single_bin 255 128 2073600) eq_refl))))).
Defined.

(** ** The claims on one pass of the loop *)

(** C4, as the script has it.  On every histogram of 255 bins one pass of
    the loop raises [ZeroDivisionError] exactly when the bins sum to 0.
    The exception comes from the first per-bin ratio
    [histogram[0] / pixels], after the sum and before the weighted array
    is built (the heap is as it was); the pass returns no statistic, so
    none with an infinite or undefined value; and no pass raises
    [EmptyHistogramError], a class the script does not have. *)
Theorem empty_histogram_raises_zero_division
    (σ : heap) (l : ref) (histogram : list Z) :
  σ !! l = Some histogram → length histogram = 255%nat →
  ((process l σ).2 = Raise ZeroDivisionError ↔ sum histogram = 0) ∧
  (sum histogram = 0 → process l σ = (σ, Raise ZeroDivisionError)) ∧
  (process l σ).2 ≠ Raise EmptyHistogramError.
Proof.
  intros E L. rewrite (process_255 _ _ _ E L).
  split; [|split; [|by case_decide]].
  - case_decide; split; (done || by intros ?).
  - intros Hz. apply (process_zero _ _ histogram); (done || lia).
Qed.

Lemma empty_histogram_raises_zero_division_witness :
  process 1%positive {[ 1%positive := replicate 255 0 ]} =
  ({[ 1%positive := replicate 255 0 ]}, Raise ZeroDivisionError).
Proof.
  refine (proj1 (proj2 (empty_histogram_raises_zero_division
            {[ 1%positive := replicate 255 0 ]} 1%positive (replicate 255 0)
            _ eq_refl)) _).
  - apply lookup_singleton_eq.
  - vm_compute. reflexivity.
Defined.

(** C4 as stated fails on the histogram of 255 empty bins: its bins sum
    to 0 and the pass raises [ZeroDivisionError], not
    [EmptyHistogramError]. *)
Lemma empty_histogram_error_not_raised :
  (run (replicate 255 0)).2 = Raise ZeroDivisionError ∧
  ¬ ((run (replicate 255 0)).2 = Raise EmptyHistogramError
     ↔ sum (replicate 255 0) = 0).
Proof.
  assert (E : (run (replicate 255 0)).2 = Raise ZeroDivisionError).
  { unfold run. rewrite (process_zero _ _ (replicate 255 0)); [done| | |].
    - apply lookup_singleton_eq.
    - rewrite length_replicate. lia.
    - vm_compute. reflexivity. }
  split; [done|]. rewrite E. intros [_ H].
  discriminate H. vm_compute. reflexivity.
Qed.

(** C5 at its input.  On the histogram of 255 bins with 2 073 600 samples
    in bin 128 the pixel count is 2 073 600, yet the pass raises
    [IndexError] in the first level of the reduction and prints no
    statistic.  The values the claim gives are those of the clamped
    reduction: [weighted[0] = 265420800], from which line 35 computes 127
    and line 42 computes [2 ** -2.25]. *)
Theorem scenario_255_raises :
  sum (single_bin 255 128 2073600) = 2073600 ∧
  (run (single_bin 255 128 2073600)).2 = Raise IndexError ∧
  head0 (weighted_clamped (single_bin 255 128 2073600)) = 265420800 ∧
  wla_of 265420800 = 127%R ∧
  wal_of 127 = Rpower 2 (-2.25).
Proof.
  split; [vm_compute; reflexivity|].
  split; [|split; [|split; [apply wla_of_scenario | apply wal_of_scenario]]].
  - unfold run. rewrite (process_255 _ _ (single_bin 255 128 2073600));
      [|apply lookup_singleton_eq | reflexivity].
    rewrite decide_False; [reflexivity|]. vm_compute. discriminate.
  - rewrite (proj2 (reduction_clamped_255 (single_bin 255 128 2073600) eq_refl)).
    apply linear_weighted_sum_scenario. lia.
Qed.

(** The same scenario on 256 bins: the pass as written ends normally with
    the values of the claim. *)
Lemma scenario_256_report :
  (run (single_bin 256 128 2073600)).2 =
  Ok (Report 2073600 265420800 127 (Rpower 2 (-2.25))).
Proof.
  unfold run.
  rewrite (process_run _ _ (single_bin 256 128 2073600));
    [|apply lookup_singleton_eq | vm_compute; lia | vm_compute; discriminate].
  destruct (histogramShared_256 (single_bin 256 128 2073600) eq_refl) as (Ho & Hh & _).
  assert (Hl : linear_weighted_sum (single_bin 256 128 2073600) = 265420800)
    by (vm_compute; reflexivity).
  assert (Hs : sum (single_bin 256 128 2073600) = 2073600)
    by (vm_compute; reflexivity).
  rewrite Hl in Hh. clear Hl.
  destruct (histogramShared (single_bin 256 128 2073600)) as [w' o].
  cbn [fst snd] in *. subst o. unfold head0 in Hh.
  destruct (w' !! 0%nat) as [w0|]; simpl in Hh; [|discriminate Hh].
  subst w0. rewrite report_outcome_nonneg, decide_True by lia.
  unfold report_of. by rewrite Hs, wla_of_scenario, wal_of_scenario.
Qed.

(** ** The claims on a histogram with samples in bin 0 only *)

(** C6 at its inputs.  On a histogram of 255 bins whose samples are all
    in bin 0 the pass raises [IndexError] in the first level of the
    reduction and prints no weighted log average.  The value the claim
    gives is that of the clamped reduction: the weighted array is all
    zeros, [weighted[0] = 0], and line 35 computes -1 from it. *)
Theorem bin0_only_255_raises (count : Z) :
  0 < count →
  (run (single_bin 255 0 count)).2 = Raise IndexError ∧
  head0 (weighted_clamped (single_bin 255 0 count)) = 0 ∧
  wla_of 0 = (-1)%R.
Proof.
  intros Hc.
  assert (L : length (single_bin 255 0 count) = 255%nat) by reflexivity.
  split; [|split; [|apply wla_of_0]].
  - unfold run. rewrite (process_255 _ _ (single_bin 255 0 count));
      [|apply lookup_singleton_eq | done].
    rewrite decide_False; [reflexivity|]. rewrite sum_bin0. lia.
  - rewrite (proj2 (reduction_clamped_255 _ L)).
    apply linear_weighted_sum_bin0.
Qed.

Lemma bin0_only_255_raises_witness :
  (run (single_bin 255 0 7)).2 = Raise IndexError.
Proof. exact (proj1 (bin0_only_255_raises 7 ltac:(lia))). Defined.

(** On 256 bins with samples in bin 0 only, the pass as written ends
    normally with a weighted log average of -1. *)
Lemma bin0_only_256_report (count : Z) :
  0 < count →
  (run (single_bin 256 0 count)).2 =
  Ok (Report count 0 (-1) (wal_of (-1))).
Proof.
  intros Hc. unfold run.
  assert (L : length (single_bin 256 0 count) = 256%nat) by reflexivity.
  rewrite (process_run _ _ (single_bin 256 0 count));
    [|apply lookup_singleton_eq | lia | rewrite sum_bin0; lia].
  destruct (histogramShared_256 _ L) as (Ho & Hh & Lh).
  rewrite linear_weighted_sum_bin0 in Hh.
  destruct (histogramShared (single_bin 256 0 count)) as [w' o].
  cbn [fst snd] in *. subst o. unfold head0 in Hh.
  destruct (w' !! 0%nat) as [w0|] eqn:E0; simpl in Hh.
  - subst w0. rewrite report_outcome_nonneg, decide_True by lia.
    unfold report_of. by rewrite sum_bin0, wla_of_0.
  - apply lookup_ge_None in E0. lia.
Qed.

(** ** The frame of one pass *)

(** C8. Whatever the input histogram and however the pass ends, the
    histogram object is the same after the pass as before: the in-place
    folds of the reduction mutate only the weighted array, a new object
    built by line 25.  The same holds of every other object of the heap
    the pass started in. *)
Theorem histogram_unchanged (σ : heap) (l : ref) (histogram : list Z) :
  σ !! l = Some histogram → (process l σ).1 !! l = Some histogram.
Proof.
  intros E. pose proof (process_keeps σ l σ) as H.
  unfold keeps in H. specialize (H (reflexivity σ)).
  destruct (process l σ) as [σ' [r|e]]; simpl; by eapply lookup_weaken.
Qed.

Lemma histogram_unchanged_witness :
  (run (single_bin 256 128 2073600)).1 !! 1%positive
  = Some (single_bin 256 128 2073600).
Proof.
  exact (histogram_unchanged {[ 1%positive := single_bin 256 128 2073600 ]}
           1%positive (single_bin 256 128 2073600) (lookup_singleton_eq _ _)).
Defined.

(** ** The quantiser *)

Lemma Int_part_ge (x : R) (k : Z) : (IZR k <= x)%R → k ≤ Int_part x.
Proof.
  intros H. destruct (base_Int_part x) as [_ H2].
  assert (H3 : (IZR (k - 1) < IZR (Int_part x))%R) by (rewrite minus_IZR; lra).
  apply lt_IZR in H3. lia.
Qed.

Lemma Int_part_le (x : R) (k : Z) : (x <= IZR k)%R → Int_part x ≤ k.
Proof.
  intros H. destruct (base_Int_part x) as [H1 _].
  apply le_IZR. lra.
Qed.

Lemma int_of_float_between (x : R) (lo hi : Z) :
  0 ≤ lo → (IZR lo <= x <= IZR hi)%R → lo ≤ int_of_float x ≤ hi.
Proof.
  intros Hlo [H1 H2]. unfold int_of_float.
  assert (0 <= x)%R by (apply IZR_le in Hlo; lra).
  destruct (Rle_dec 0 x); [|done].
  split; [by apply Int_part_ge | by apply Int_part_le].
Qed.

Lemma ln2_pos : (0 < ln 2)%R.
Proof. rewrite <- ln_1. apply ln_increasing; lra. Qed.

Lemma ln_mono (x y : R) : (0 < x)%R → (x <= y)%R → (ln x <= ln y)%R.
Proof.
  intros Hx [Hlt| ->]; [|lra]. left. by apply ln_increasing.
Qed.

(** [log2 x >= 1/3 - 8] from [x >= 0.005], since [0.005^3 >= 2^-23]. *)
Lemma log2_threshold (x : R) :
  (0.005 <= x)%R → (1 / 3 - 8 <= ln x / ln 2)%R.
Proof.
  intros H. pose proof ln2_pos as H2.
  assert (Hl : (ln (/ 2 ^ 23) <= ln (x ^ 3))%R).
  { apply ln_mono.
    - apply Rinv_0_lt_compat. apply pow_lt. lra.
    - apply Rle_trans with (0.005 ^ 3)%R; [lra|].
      apply pow_incr. lra. }
  rewrite ln_pow in Hl by lra.
  rewrite ln_Rinv in Hl by (apply pow_lt; lra).
  rewrite ln_pow in Hl by lra.
  change (INR 3) with (1 + 1 + 1)%R in Hl.
  assert (E23 : INR 23 = 23%R) by (rewrite INR_IZR_INZ; reflexivity).
  rewrite E23 in Hl.
  apply Rmult_le_reg_r with (ln 2); [done|].
  unfold Rdiv at 2. rewrite Rmult_assoc, Rinv_l by lra. lra.
Qed.

(** [log2 17 >= 3.5], since [17^2 >= 2^7]. *)
Lemma log2_17 : (3.5 <= ln 17 / ln 2)%R.
Proof.
  pose proof ln2_pos as H2.
  assert (Hl : (ln (2 ^ 7) <= ln (17 ^ 2))%R)
    by (apply ln_mono; [apply pow_lt; lra | lra]).
  rewrite !ln_pow in Hl by lra.
  assert (E7 : INR 7 = 7%R) by (rewrite INR_IZR_INZ; reflexivity).
  assert (E2 : INR 2 = 2%R) by (rewrite INR_IZR_INZ; reflexivity).
  rewrite E7, E2 in Hl.
  apply Rmult_le_reg_r with (ln 2); [done|].
  unfold Rdiv. rewrite Rmult_assoc, Rinv_l by lra. lra.
Qed.

(** The clamp keeps [logLum] in [0, 1]. *)
Lemma logLum_range (l : R) : (0 <= logLum l <= 1)%R.
Proof.
  unfold logLum. split.
  - apply Rmin_glb; [|lra]. eapply Rle_trans; [|apply Rmax_r]. lra.
  - eapply Rle_trans; [apply Rmin_r|]. lra.
Qed.

(** Above the black threshold [logLum] is at least [7/254]. *)
Lemma logLum_above_threshold (x : R) :
  (0.005 <= x)%R → (7 / 254 <= logLum (ln x / ln 2))%R.
Proof.
  intros H. apply log2_threshold in H.
  unfold logLum, inverseLogLumRange, maxLogLum, minLogLum.
  apply Rmin_glb; [|lra].
  eapply Rle_trans; [|apply Rmax_l]. lra.
Qed.

(** At or above [2 ** maxLogLum] the clamp gives exactly 1. *)
Lemma logLum_saturates (l : R) : (maxLogLum <= l)%R → logLum l = 1%R.
Proof.
  unfold logLum, inverseLogLumRange, maxLogLum, minLogLum. intros H.
  rewrite Rmax_left by lra. rewrite Rmin_right by lra. lra.
Qed.

(** The three ways a call of [colorToBin] goes. *)
Lemma colorToBin_nonpositive (r g b : R) :
  (lum r g b <= 0)%R → colorToBin r g b = Raise ValueError.
Proof.
  intros H. unfold colorToBin, math_log2.
  destruct (Rlt_dec 0 (lum r g b)); [lra | done].
Qed.

Lemma colorToBin_black (r g b : R) :
  (0 < lum r g b < 0.005)%R → colorToBin r g b = Ok 0.
Proof.
  intros H. unfold colorToBin, math_log2.
  destruct (Rlt_dec 0 (lum r g b)); [|lra]. simpl.
  destruct (Rlt_dec (lum r g b) 0.005); [done | lra].
Qed.

Lemma colorToBin_lit (r g b : R) :
  (0.005 <= lum r g b)%R →
  colorToBin r g b =
  Ok (int_of_float (logLum (ln (lum r g b) / ln 2) * 254.0 + 1.0)).
Proof.
  intros H. unfold colorToBin, math_log2.
  destruct (Rlt_dec 0 (lum r g b)); [|lra]. simpl.
  destruct (Rlt_dec (lum r g b) 0.005); [lra | done].
Qed.

Lemma colorToBin_cases (r g b : R) (bin : Z) :
  colorToBin r g b = Ok bin →
  bin = 0 ∨
  (0.005 <= lum r g b)%R ∧
  bin = int_of_float (logLum (ln (lum r g b) / ln 2) * 254.0 + 1.0).
Proof.
  intros E. destruct (Rle_dec (lum r g b) 0) as [H0|H0].
  - by rewrite colorToBin_nonpositive in E.
  - destruct (Rlt_dec (lum r g b) 0.005) as [H1|H1].
    + rewrite colorToBin_black in E by lra. left. congruence.
    + rewrite colorToBin_lit in E by lra. right. split; [lra | congruence].
Qed.

Lemma lum_20 : lum 20 20 20 = 17%R.
Proof. unfold lum. lra. Qed.

(** [colorToBin(20, 20, 20)], the second call of the script, is 255. *)
Lemma colorToBin_20 : colorToBin 20 20 20 = Ok 255.
Proof.
  rewrite colorToBin_lit by (rewrite lum_20; lra).
  rewrite lum_20, logLum_saturates by (unfold maxLogLum; apply log2_17).
  f_equal. apply Z.le_antisymm; apply (int_of_float_between _ 255 255); (lia || lra).
Qed.

(** C2, as the function has it.  Whenever [colorToBin] returns, the bin is
    an integer between 0 and 255 inclusive: 0 below the black threshold,
    otherwise [int(logLum * 254.0 + 1.0)] with [logLum] in [0, 1], which
    is 255 when the clamped [logLum] equals 1.0. *)
Theorem colorToBin_range (r g b : R) (bin : Z) :
  colorToBin r g b = Ok bin → 0 ≤ bin ≤ 255.
Proof.
  intros E. destruct (colorToBin_cases _ _ _ _ E) as [->|[_ ->]]; [lia|].
  pose proof (logLum_range (ln (lum r g b) / ln 2)) as [H0 H1].
  assert (1 ≤ int_of_float (logLum (ln (lum r g b) / ln 2) * 254.0 + 1.0) ≤ 255)
    by (apply int_of_float_between; [lia | lra]).
  lia.
Qed.

Lemma colorToBin_range_witness : 0 ≤ 255 ≤ 255.
Proof. exact (colorToBin_range 20 20 20 255 colorToBin_20). Defined.

(** C2 as stated fails at (20, 20, 20): the luminance is 17, above
    [2 ** 3.5], the clamped [logLum] is 1.0 and the bin is 255, outside
    [0, 254]. *)
Lemma colorToBin_returns_255 :
  ∃ bin, colorToBin 20 20 20 = Ok bin ∧ ¬ (0 ≤ bin ≤ 254).
Proof. exists 255. split; [apply colorToBin_20 | lia]. Qed.

(** C3 at its input.  [colorToBin(0, 0, 0)] has luminance 0, and line 49
    evaluates [math.log2(0.0)] before the threshold test of line 50: the
    call raises [ValueError] where the claim has it return bin 0.  So does
    every call with a luminance of zero or below. *)
Theorem colorToBin_black_raises :
  colorToBin 0 0 0 = Raise ValueError ∧
  ∀ r g b, (lum r g b <= 0)%R → colorToBin r g b = Raise ValueError.
Proof.
  split; [|apply colorToBin_nonpositive].
  apply colorToBin_nonpositive. unfold lum. lra.
Qed.

(** C10. [colorToBin] never returns a bin from 1 to 7: a luminance of at
    least 0.005 has a clamped [logLum] of at least 7/254 (it is about
    0.031), so the bin is at least 8; below 0.005 the bin is 0. *)
Theorem colorToBin_dead_bins (r g b : R) (bin : Z) :
  colorToBin r g b = Ok bin → bin = 0 ∨ 8 ≤ bin.
Proof.
  intros E. destruct (colorToBin_cases _ _ _ _ E) as [->|[Hl ->]]; [by left|].
  right.
  pose proof (logLum_range (ln (lum r g b) / ln 2)) as [_ H1].
  pose proof (logLum_above_threshold _ Hl) as H7.
  apply (int_of_float_between _ 8 255); [lia | lra].
Qed.

Lemma colorToBin_dead_bins_witness : 255 = 0 ∨ 8 ≤ 255.
Proof. exact (colorToBin_dead_bins 20 20 20 255 colorToBin_20). Defined.

(** * Further properties of the script *)

(** ** How the reduction ends, by the length of the list *)

Lemma cutoff_even (n i : nat) :
  Nat.Even n → (0 < n)%nat → (0 < i)%nat → (cutoff n i + cutoff n i ≤ n)%nat.
Proof.
  intros [m ->] Hn Hi. destruct i as [|j]; [lia|].
  unfold cutoff, ceil_div. rewrite Nat.pow_succ_r'.
  assert (Hq : (0 < 2 ^ j)%nat) by (apply Nat.neq_0_lt_0, Nat.pow_nonzero; lia).
  set (q := (2 ^ j)%nat) in *.
  assert ((2 * m + 2 * q - 1) / (2 * q) < m + 1)%nat; [|lia].
  apply Nat.Div0.div_lt_upper_bound. nia.
Qed.

Lemma cutoff_odd (n : nat) :
  Nat.Odd n → (cutoff n 1 + cutoff n 1 = n + 1)%nat.
Proof.
  intros [m ->]. unfold cutoff, ceil_div. change (2 ^ 1)%nat with 2%nat.
  replace (2 * m + 1 + 2 - 1)%nat with ((m + 1) * 2)%nat by lia.
  rewrite Nat.div_mul by lia. lia.
Qed.

(** A level whose partners are all in range ends normally and keeps the
    length. *)
Lemma level_ok (c : nat) (w : list Z) :
  (c + c ≤ length w)%nat →
  ∃ w', for_range 0 c (λ j, fold_pair j c) w = (w', Ok tt)
        ∧ length w' = length w
        ∧ sum (take c w') = sum (take (c + c) w).
Proof.
  intros Hc. rewrite (level_in_range c w Hc). apply level_clamped.
Qed.

Lemma reduction_even (n : nat) (w : list Z) :
  length w = n → Nat.Even n → (0 < n)%nat →
  ∃ w', reduction n w = (w', Ok tt) ∧ length w' = n.
Proof.
  intros L He Hn. unfold reduction, reduction_with.
  rewrite bind_run. unfold lift, ceil_log2.
  destruct n as [|n']; [lia|]. set (n := S n') in *.
  unfold for_range at 1.
  apply (for_each_inv (λ v, length v = n)); [|done].
  intros i v Hi Lv. apply elem_of_seq in Hi.
  destruct (level_ok (cutoff n i) v) as (v' & E & L' & _).
  - rewrite Lv. apply cutoff_even; (done || lia).
  - exists v'. split; [done | lia].
Qed.

Lemma reduction_odd (n : nat) (w : list Z) :
  length w = n → Nat.Odd n → (1 < n)%nat →
  (reduction n w).2 = Raise IndexError.
Proof.
  intros L Ho Hn. unfold reduction, reduction_with.
  rewrite bind_run. unfold lift, ceil_log2.
  destruct n as [|n']; [lia|]. set (n := S n') in *.
  pose proof (Nat.log2_up_pos n Hn) as Hk.
  destruct (Nat.log2_up n) as [|k]; [lia|].
  unfold for_range at 1. replace (S k + 1 - 1)%nat with (S k) by lia.
  cbn [seq for_each]. rewrite bind_run.
  pose proof (level_oob (cutoff n 1) w) as H.
  pose proof (cutoff_odd n Ho) as Hc.
  destruct (for_range 0 (cutoff n 1) (λ j, fold_pair j (cutoff n 1)) w) as [w1 o].
  simpl in H. rewrite H by lia. done.
Qed.

Lemma histogramShared_outcome (h : list Z) :
  (histogramShared h).2 =
  match length h with
  | 0%nat => Raise ValueError
  | 1%nat => Ok tt
  | n => if Nat.even n then Ok tt else Raise IndexError
  end.
Proof.
  unfold histogramShared.
  assert (Lw : length (weighted h) = length h) by apply length_imap.
  destruct (length h) as [|[|n]] eqn:L.
  - reflexivity.
  - reflexivity.
  - destruct (Nat.even (S (S n))) eqn:E.
    + apply Nat.even_spec in E.
      destruct (reduction_even (S (S n)) (weighted h)) as (w' & -> & _);
        (done || lia).
    + apply reduction_odd; [done | | lia].
      apply Nat.odd_spec. unfold Nat.odd. by rewrite E.
Qed.

(** ** Lengths that are powers of two *)

Lemma cutoff_pow2 (k i : nat) :
  (i ≤ k)%nat → cutoff (2 ^ k) i = (2 ^ (k - i))%nat.
Proof.
  intros Hi. unfold cutoff, ceil_div.
  assert (Hp : (0 < 2 ^ i)%nat) by (apply Nat.neq_0_lt_0, Nat.pow_nonzero; lia).
  replace (2 ^ k)%nat with (2 ^ (k - i) * 2 ^ i)%nat
    by (rewrite <- Nat.pow_add_r; f_equal; lia).
  replace (2 ^ (k - i) * 2 ^ i + 2 ^ i - 1)%nat
    with (2 ^ (k - i) * 2 ^ i + (2 ^ i - 1))%nat by lia.
  rewrite Nat.div_add_l by lia.
  rewrite Nat.div_small by lia. lia.
Qed.

(** The levels [a+1 .. a+d] of the reduction on [2 ^ (a+d)] entries carry
    the sum of the first [2 ^ d] entries into entry 0. *)
Lemma levels_pow2 (d a : nat) (w : list Z) :
  length w = (2 ^ (a + d))%nat →
  ∃ w', for_each (seq (S a) d)
          (λ i, for_range 0 (cutoff (2 ^ (a + d)) i)
                  (λ j, fold_pair j (cutoff (2 ^ (a + d)) i))) w = (w', Ok tt)
    ∧ length w' = length w
    ∧ sum (take 1 w') = sum (take (2 ^ d) w).
Proof.
  revert a w. induction d as [|d IH]; intros a w L.
  - exists w. done.
  - cbn [seq for_each]. rewrite bind_run.
    rewrite (cutoff_pow2 (a + S d) (S a)) by lia.
    replace (a + S d - S a)%nat with d by lia.
    assert (Hle : (2 ^ d + 2 ^ d ≤ length w)%nat).
    { rewrite L. replace (2 ^ d + 2 ^ d)%nat with (2 ^ S d)%nat
        by (rewrite Nat.pow_succ_r'; lia).
      apply Nat.pow_le_mono_r; lia. }
    destruct (level_ok (2 ^ d) w Hle) as (w1 & -> & L1 & S1).
    replace (a + S d)%nat with (S a + d)%nat in * by lia.
    destruct (IH (S a) w1) as (w' & E' & L' & S'); [lia|].
    exists w'. split; [done|]. split; [lia|].
    rewrite S', S1. f_equal. f_equal. rewrite Nat.pow_succ_r'. lia.
Qed.

Lemma reduction_pow2 (k : nat) (w : list Z) :
  length w = (2 ^ k)%nat →
  ∃ w', reduction (2 ^ k) w = (w', Ok tt)
    ∧ length w' = length w ∧ head0 w' = sum w.
Proof.
  intros L. destruct (levels_pow2 k 0 w L) as (w' & E & L' & S').
  exists w'. split; [|split; [done|]].
  - unfold reduction, reduction_with. rewrite bind_run. unfold lift, ceil_log2.
    assert (Hp : (0 < 2 ^ k)%nat) by (apply Nat.neq_0_lt_0, Nat.pow_nonzero; lia).
    destruct (2 ^ k)%nat as [|p] eqn:Ep; [lia|]. rewrite <- Ep in *.
    rewrite Nat.log2_up_pow2 by lia.
    unfold for_range at 1. replace (k + 1 - 1)%nat with k by lia. exact E.
  - rewrite sum_take_1 in S'. rewrite S', take_ge by lia. done.
Qed.

Lemma histogramShared_pow2 (k : nat) (h : list Z) :
  length h = (2 ^ k)%nat →
  (histogramShared h).2 = Ok tt ∧
  head0 (histogramShared h).1 = linear_weighted_sum h ∧
  length (histogramShared h).1 = length h.
Proof.
  intros L. unfold histogramShared. rewrite L.
  assert (Lw : length (weighted h) = (2 ^ k)%nat)
    by (unfold weighted; by rewrite length_imap).
  destruct (reduction_pow2 k (weighted h) Lw) as (w' & -> & L' & H0).
  cbn [fst snd]. split; [done|]. split; [done | lia].
Qed.

(** ** A length that is even and no power of two *)

Lemma histogramShared_6 (h : list Z) :
  length h = 6%nat →
  (histogramShared h).2 = Ok tt ∧
  head0 (histogramShared h).1 = linear_weighted_sum h + 3 * default 0 (h !! 3%nat).
Proof.
  intros L.
  destruct h as [|a [|b [|c [|d [|e [|f [|g h]]]]]]]; try discriminate L.
  split; [reflexivity|].
  unfold histogramShared, linear_weighted_sum, head0.
  cbv -[Z.add Z.mul Z.of_nat]. lia.
Qed.

(** ** How one pass of the loop ends *)

(** On fewer than 255 bins the ratio loop runs off the end of the
    histogram. *)
Lemma ratios_short (l : ref) (σ : heap) (h : list Z) (p : Z) :
  σ !! l = Some h → (length h < 255)%nat → p ≠ 0 →
  ratios l p σ = (σ, Raise IndexError).
Proof.
  intros E L Hp. unfold ratios, for_range.
  replace (255 - 0)%nat with (length h + S (254 - length h))%nat by lia.
  rewrite seq_app. cbn [seq]. rewrite Nat.add_0_l.
  eapply for_each_raise.
  - destruct (for_each_inv (λ s : heap, s = σ) (seq 0 (length h))
      (λ i, x ← at_ref l (getitem i); true_div x p;;
            at_ref l (getitem i);; mret tt)) with (s := σ)
      as (s' & E' & ->); [|done|exact E'].
    intros i s Hi ->. apply elem_of_seq in Hi.
    destruct (lookup_lt_is_Some_2 h i) as [x Ex]; [lia|].
    exists σ. split; [|done].
    rewrite (bind_ok _ _ _ _ _ (at_ref_getitem _ _ _ _ _ E Ex)).
    unfold true_div. rewrite decide_False by done.
    rewrite bind_run. simpl.
    by rewrite (bind_ok _ _ _ _ _ (at_ref_getitem _ _ _ _ _ E Ex)).
  - apply bind_raise. rewrite (at_ref_read _ _ _ _ E) by done.
    unfold getitem. cbn [snd].
    by rewrite (proj2 (lookup_ge_None h (length h))) by lia.
Qed.

Lemma process_short (l : ref) (σ : heap) (h : list Z) :
  σ !! l = Some h → (length h < 255)%nat → sum h ≠ 0 →
  process l σ = (σ, Raise IndexError).
Proof.
  intros E L Hs. unfold process.
  rewrite (bind_ok _ _ _ _ _ (load_run _ _ _ E)). cbn zeta.
  by rewrite (bind_raise _ _ _ _ _ (ratios_short _ _ _ _ E L Hs)).
Qed.

(** On an empty list [histogram[0]] is read before anything is divided. *)
Lemma process_nil (l : ref) (σ : heap) :
  σ !! l = Some [] → process l σ = (σ, Raise IndexError).
Proof.
  intros E. unfold process.
  rewrite (bind_ok _ _ _ _ _ (load_run _ _ _ E)). cbn zeta.
  apply bind_raise. unfold ratios, for_range.
  change (seq 0 (255 - 0)) with ([] ++ 0%nat :: seq 1 254).
  eapply for_each_raise; [reflexivity|].
  apply bind_raise. by rewrite (at_ref_read _ _ _ _ E).
Qed.

Lemma process_outcome_table (σ : heap) (l : ref) (h : list Z) :
  σ !! l = Some h →
  (process l σ).2 =
    if decide (length h = 0%nat) then Raise IndexError
    else if decide (sum h = 0) then Raise ZeroDivisionError
    else if decide (length h < 255)%nat then Raise IndexError
    else if Nat.even (length h)
         then report_outcome h (head0 (histogramShared h).1)
         else Raise IndexError.
Proof.
  intros E. case_decide as H0.
  - destruct h; [|done]. by rewrite process_nil.
  - case_decide as Hz; [by rewrite (process_zero _ _ _ E) by (done || lia)|].
    case_decide as Hl; [by rewrite (process_short _ _ _ E)|].
    rewrite (process_run _ _ _ E) by (done || lia). cbn [snd].
    rewrite histogramShared_outcome.
    destruct (length h) as [|[|n]] eqn:L; [lia | lia |].
    destruct (Nat.even (S (S n))) eqn:Ev; [|done].
    apply Nat.even_spec in Ev.
    destruct (reduction_even (S (S n)) (weighted h)) as (w' & Er & Lw');
      [unfold weighted; by rewrite length_imap | done | lia |].
    unfold histogramShared. rewrite L, Er. cbn [fst].
    unfold head0. destruct (w' !! 0%nat) as [w0|] eqn:E0; [done|].
    apply lookup_ge_None in E0. lia.
Qed.

(** ** Histograms that are powers of two long *)

Lemma even_pow2 (k : nat) : (0 < k)%nat → Nat.even (2 ^ k) = true.
Proof.
  intros Hk. destruct k as [|k]; [lia|].
  rewrite Nat.pow_succ_r', Nat.even_mul. done.
Qed.

Lemma process_pow2 (σ : heap) (l : ref) (h : list Z) (k : nat) :
  σ !! l = Some h → length h = (2 ^ k)%nat → (8 ≤ k)%nat → sum h ≠ 0 →
  (process l σ).2 = report_outcome h (linear_weighted_sum h).
Proof.
  intros E L Hk Hs. rewrite (process_outcome_table _ _ _ E).
  assert (H256 : (2 ^ 8 ≤ 2 ^ k)%nat) by (apply Nat.pow_le_mono_r; lia).
  change (2 ^ 8)%nat with 256%nat in H256.
  rewrite !decide_False by (done || lia).
  rewrite L, even_pow2 by lia.
  by rewrite (proj1 (proj2 (histogramShared_pow2 k h L))).
Qed.

(** ** Non-negative counts *)

Lemma outcome_map_report_outcome (h : list Z) (w0 : Z) :
  0 ≤ w0 →
  outcome_map printed_ints (report_outcome h w0) =
    if decide (w0 < 47267171061) then Ok (sum h, w0) else Raise OverflowError.
Proof. intros H0. rewrite report_outcome_nonneg by done. by case_decide. Qed.

Lemma fold_pair_nonneg (j c : nat) :
  hoare nonneg (fold_pair j c) (λ _, nonneg) nonneg.
Proof.
  intros w Hw. destruct (w !! (j + c)%nat) as [b|] eqn:Eb.
  - destruct (w !! j) as [a|] eqn:Ea.
    + rewrite (fold_pair_ok _ _ _ _ _ Ea Eb). apply Forall_insert; [done|].
      pose proof (Forall_lookup_1 _ _ _ _ Hw Ea).
      pose proof (Forall_lookup_1 _ _ _ _ Hw Eb). simpl in *. lia.
    + apply lookup_ge_None in Ea. apply lookup_lt_Some in Eb. lia.
  - by rewrite (fold_pair_oob _ _ _ Eb).
Qed.

Lemma reduction_nonneg (n : nat) :
  hoare nonneg (reduction n) (λ _, nonneg) nonneg.
Proof.
  unfold reduction, reduction_with.
  eapply hoare_bind; [by apply hoare_pure | intros k].
  apply hoare_for_each. intros i.
  apply hoare_for_each. intros j. apply fold_pair_nonneg.
Qed.

Lemma weighted_nonneg (h : list Z) : nonneg h → nonneg (weighted h).
Proof.
  intros Hh. apply Forall_lookup. intros i y. unfold weighted.
  rewrite list_lookup_imap. destruct (h !! i) as [x|] eqn:Ex; [|done].
  intros [= <-]. pose proof (Forall_lookup_1 _ _ _ _ Hh Ex). simpl in *. nia.
Qed.

Lemma histogramShared_nonneg (h : list Z) :
  nonneg h → nonneg (histogramShared h).1.
Proof.
  intros Hh. pose proof (reduction_nonneg (length h) _ (weighted_nonneg h Hh)) as H.
  unfold histogramShared. by destruct (reduction (length h) (weighted h)) as [w' [[]|e]].
Qed.

Lemma sum_nonneg (h : list Z) : nonneg h → 0 ≤ sum h.
Proof. induction 1; simpl; lia. Qed.

Lemma head0_nonneg (w : list Z) : nonneg w → 0 ≤ head0 w.
Proof. intros [|x w' Hx _]; unfold head0; simpl; lia. Qed.

Lemma wla_of_lower (w0 : Z) : 0 ≤ w0 → (-1 <= wla_of w0)%R.
Proof.
  intros H. unfold wla_of. change (1920 * 1080) with 2073600.
  rewrite Rmax_left by lra. apply IZR_le in H.
  assert (0 <= IZR w0 / 2073600)%R; [|lra].
  apply Rmult_le_pos; [done|]. left. apply Rinv_0_lt_compat. lra.
Qed.

Lemma process_ok_inv (σ : heap) (l : ref) (h : list Z) (r : report) :
  σ !! l = Some h → (process l σ).2 = Ok r →
  sum h ≠ 0 ∧ (255 ≤ length h)%nat ∧ Nat.even (length h) = true ∧
  r = report_of h (head0 (histogramShared h).1).
Proof.
  intros E. rewrite (process_outcome_table _ _ _ E).
  repeat case_decide; try done.
  destruct (Nat.even (length h)); [|done]. intros Hr.
  apply report_outcome_ok_inv in Hr.
  repeat split; (done || lia).
Qed.

(** How a pass ends on non-negative counts, with the integers it prints. *)
Lemma process_outcome_nonneg (σ : heap) (l : ref) (h : list Z) :
  σ !! l = Some h → nonneg h →
  outcome_map printed_ints (process l σ).2 =
    if decide (length h = 0%nat) then Raise IndexError
    else if decide (sum h = 0) then Raise ZeroDivisionError
    else if decide (length h < 255)%nat then Raise IndexError
    else if Nat.even (length h)
         then if decide (head0 (histogramShared h).1 < 47267171061)
              then Ok (sum h, head0 (histogramShared h).1)
              else Raise OverflowError
         else Raise IndexError.
Proof.
  intros E Hn. rewrite (process_outcome_table _ _ _ E).
  repeat case_decide; try done.
  - destruct (Nat.even (length h)); [|done].
    rewrite outcome_map_report_outcome, decide_True;
      (done || apply head0_nonneg, histogramShared_nonneg, Hn).
  - destruct (Nat.even (length h)); [|done].
    rewrite outcome_map_report_outcome, decide_False;
      (done || apply head0_nonneg, histogramShared_nonneg, Hn).
Qed.

Lemma process_pow2_nonneg (σ : heap) (l : ref) (h : list Z) (k : nat) :
  σ !! l = Some h → length h = (2 ^ k)%nat → (8 ≤ k)%nat →
  nonneg h → sum h ≠ 0 →
  outcome_map printed_ints (process l σ).2 =
    if decide (linear_weighted_sum h < 47267171061)
    then Ok (sum h, linear_weighted_sum h)
    else Raise OverflowError.
Proof.
  intros E L Hk Hn Hs. rewrite (process_pow2 _ _ _ k E L Hk Hs).
  apply outcome_map_report_outcome.
  rewrite <- (proj1 (proj2 (histogramShared_pow2 k h L))).
  apply head0_nonneg, histogramShared_nonneg, Hn.
Qed.

(** ** Invariants of the reduction *)

Lemma fold_pair_length (n j c : nat) :
  hoare (λ w, length w = n) (fold_pair j c)
        (λ _ w, length w = n) (λ w, length w = n).
Proof.
  intros w Hw. destruct (w !! (j + c)%nat) as [b|] eqn:Eb.
  - destruct (w !! j) as [a|] eqn:Ea.
    + rewrite (fold_pair_ok _ _ _ _ _ Ea Eb). by rewrite length_insert.
    + apply lookup_ge_None in Ea. apply lookup_lt_Some in Eb. lia.
  - by rewrite (fold_pair_oob _ _ _ Eb).
Qed.

Lemma reduction_length (n m : nat) :
  hoare (λ w, length w = m) (reduction n)
        (λ _ w, length w = m) (λ w, length w = m).
Proof.
  unfold reduction, reduction_with.
  eapply hoare_bind; [by apply hoare_pure | intros k].
  apply hoare_for_each. intros i.
  apply hoare_for_each. intros j. apply fold_pair_length.
Qed.

Lemma histogramShared_length (h : list Z) :
  length (histogramShared h).1 = length h.
Proof.
  pose proof (reduction_length (length h) (length h) (weighted h)
                (length_imap _ _)) as H.
  unfold histogramShared.
  by destruct (reduction (length h) (weighted h)) as [w' [[]|e]].
Qed.

(** ** Histograms with samples in one bin, in general *)

Lemma sum_single_bin (bins k : nat) (c : Z) :
  (k < bins)%nat → sum (single_bin bins k c) = c.
Proof.
  intros Hk. unfold single_bin.
  replace bins with (k + S (bins - S k))%nat by lia.
  rewrite replicate_add, insert_app_r_alt by (rewrite length_replicate; lia).
  rewrite length_replicate, Nat.sub_diag. cbn [replicate].
  change (<[0%nat:=c]> (0 :: replicate (bins - S k) 0))
    with (c :: replicate (bins - S k) 0).
  rewrite sum_app. cbn [sum foldr].
  fold (sum (replicate (bins - S k) 0)). rewrite !sum_replicate_0. lia.
Qed.

(** ** The loop over the samples *)

(** The samples on which a pass ends normally: non-negative counts with a
    non-zero sum, an even number of bins, at least 256, and a reduced
    [histogramShared[0]] below the value from which line 42 overflows. *)
Lemma main_loop_ok (samples : list ref) (σ s : heap) :
  σ ⊆ s →
  Forall (λ l, ∃ h, σ !! l = Some h ∧ nonneg h ∧ sum h ≠ 0
                    ∧ (255 ≤ length h)%nat ∧ Nat.even (length h) = true
                    ∧ head0 (histogramShared h).1 < 47267171061) samples →
  (main_loop samples s).2 = Ok tt ∧ σ ⊆ (main_loop samples s).1.
Proof.
  intros Hs Hall. revert s Hs.
  induction Hall as [|l samples (h & El & Hn & Hz & Hl & He & Hw) _ IH];
    intros s Hs.
  - done.
  - unfold main_loop. cbn [for_each]. rewrite !bind_run.
    assert (Es : s !! l = Some h) by by eapply lookup_weaken.
    pose proof (process_outcome_table s l h Es) as Ho.
    rewrite !decide_False, He in Ho by (done || lia).
    rewrite report_outcome_nonneg, decide_True in Ho
      by (done || apply head0_nonneg, histogramShared_nonneg, Hn).
    pose proof (process_keeps s l s (reflexivity s)) as Hk.
    destruct (process l s) as [s1 o]. cbn [snd] in Ho. subst o.
    cbn [mret M_ret ret]. apply IH. unfold keeps in Hk. by etrans.
Qed.

(** ** The calls the script makes *)

Lemma int_of_float_lt (x : R) (k : Z) :
  (0 <= x < IZR k)%R → int_of_float x < k.
Proof.
  intros [H0 H]. unfold int_of_float. destruct (Rle_dec 0 x); [|lra].
  destruct (base_Int_part x) as [H1 _]. apply lt_IZR. lra.
Qed.

(** A luminance from 0.005 on whose [log2] puts [logLum * 254.0 + 1.0]
    between [k] and [k + 1] is quantised to bin [k]. *)
Lemma colorToBin_at (r g b : R) (k : Z) :
  1 ≤ k ≤ 254 → (0.005 <= lum r g b)%R →
  ((IZR k - 1) / 254 * 11.5 - 8 <= ln (lum r g b) / ln 2
     < IZR k / 254 * 11.5 - 8)%R →
  colorToBin r g b = Ok k.
Proof.
  intros [Hk1 Hk2] Hl [Hlo Hhi]. rewrite colorToBin_lit by done.
  pose proof (IZR_le _ _ Hk1) as Hr1. pose proof (IZR_le _ _ Hk2) as Hr2.
  set (l := (ln (lum r g b) / ln 2)%R) in *. clearbody l.
  assert (E : logLum l = ((l + 8) * 2 / 23)%R).
  { unfold logLum, inverseLogLumRange, maxLogLum, minLogLum.
    rewrite Rmax_left by lra. rewrite Rmin_left by lra. lra. }
  rewrite E. f_equal. apply Z.le_antisymm.
  - assert (int_of_float ((l + 8) * 2 / 23 * 254.0 + 1.0) < k + 1); [|lia].
    apply int_of_float_lt. rewrite plus_IZR. lra.
  - apply (int_of_float_between _ k (k + 1)); [lia|]. rewrite plus_IZR. lra.
Qed.

Lemma INR_nat (n : nat) : INR n = IZR (Z.of_nat n).
Proof. apply INR_IZR_INZ. Qed.

(** [log2 0.085] lies between [-57/16] and [-71/20], since
    [2^-57 <= 0.085^16] and [0.085^20 < 2^-71]. *)
Lemma log2_085 : (-57 / 16 <= ln 0.085 / ln 2 < -71 / 20)%R.
Proof.
  pose proof ln2_pos as H2.
  assert (Hlo : (ln (/ 2 ^ 57) <= ln (0.085 ^ 16))%R).
  { apply ln_mono; [apply Rinv_0_lt_compat, pow_lt; lra | lra]. }
  assert (Hhi : (ln (0.085 ^ 20) < ln (/ 2 ^ 71))%R).
  { apply ln_increasing; [apply pow_lt; lra | lra]. }
  rewrite ln_Rinv, !ln_pow in Hlo, Hhi by ((apply pow_lt; lra) || lra).
  rewrite !INR_nat in Hlo, Hhi.
  cbv [Z.of_nat Pos.of_succ_nat Pos.succ] in Hlo, Hhi.
  split.
  - apply Rmult_le_reg_r with (ln 2); [done|].
    unfold Rdiv at 2. rewrite Rmult_assoc, Rinv_l by lra. lra.
  - apply Rmult_lt_reg_r with (ln 2); [done|].
    unfold Rdiv at 1. rewrite Rmult_assoc, Rinv_l by lra. lra.
Qed.

(** [log2 2.171] lies between [10/9] and [9/8], since [2^10 <= 2.171^9]
    and [2.171^8 < 2^9]. *)
Lemma log2_2171 : (10 / 9 <= ln 2.171 / ln 2 < 9 / 8)%R.
Proof.
  pose proof ln2_pos as H2.
  assert (Hlo : (ln (2 ^ 10) <= ln (2.171 ^ 9))%R).
  { apply ln_mono; [apply pow_lt; lra | lra]. }
  assert (Hhi : (ln (2.171 ^ 8) < ln (2 ^ 9))%R).
  { apply ln_increasing; [apply pow_lt; lra | lra]. }
  rewrite !ln_pow in Hlo, Hhi by lra.
  rewrite !INR_nat in Hlo, Hhi.
  cbv [Z.of_nat Pos.of_succ_nat Pos.succ] in Hlo, Hhi.
  split.
  - apply Rmult_le_reg_r with (ln 2); [done|].
    unfold Rdiv at 2. rewrite Rmult_assoc, Rinv_l by lra. lra.
  - apply Rmult_lt_reg_r with (ln 2); [done|].
    unfold Rdiv at 1. rewrite Rmult_assoc, Rinv_l by lra. lra.
Qed.

(** Line 58: the luminance is 0.085 and [logLum * 254.0 + 1.0] about
    99.15. *)
Lemma colorToBin_01 : colorToBin 0.1 0.1 0.1 = Ok 99.
Proof.
  assert (E : lum 0.1 0.1 0.1 = 0.085%R) by (unfold lum; lra).
  pose proof log2_085.
  apply colorToBin_at; rewrite ?E; (lia || lra).
Qed.

(** Line 60: the luminance is 2.171 and [logLum * 254.0 + 1.0] about
    202.4. *)
Lemma colorToBin_20_01_30 : colorToBin 20 0.1 30 = Ok 202.
Proof.
  assert (E : lum 20 0.1 30 = 2.171%R) by (unfold lum; lra).
  pose proof log2_2171.
  apply colorToBin_at; rewrite ?E; (lia || lra).
Qed.

(** ** The properties, one by one *)

(** X1. How lines 25-30 end depends on the length of the histogram only:
    [ValueError] from [math.log2(0)] on an empty one, normally on one bin
    and on every even number of bins, [IndexError] on every odd number of
    bins from 3 on. *)
Theorem reduction_ends_by_length (histogram : list Z) :
  (histogramShared histogram).2 =
  match length histogram with
  | 0%nat => Raise ValueError
  | 1%nat => Ok tt
  | n => if Nat.even n then Ok tt else Raise IndexError
  end.
Proof. apply histogramShared_outcome. Qed.

(** X2. On a histogram whose length is a power of two the reduction as
    written ends normally and leaves in [histogramShared[0]] the sum over
    [i] of [i * histogram[i]]. *)
Theorem reduction_power_of_two_sum (k : nat) (histogram : list Z) :
  length histogram = (2 ^ k)%nat →
  (histogramShared histogram).2 = Ok tt ∧
  head0 (histogramShared histogram).1 = linear_weighted_sum histogram.
Proof.
  intros L. destruct (histogramShared_pow2 k histogram L) as (H1 & H2 & _). done.
Qed.

Lemma reduction_power_of_two_sum_witness :
  head0 (histogramShared [5; 1; 2; 3]).1 = linear_weighted_sum [5; 1; 2; 3].
Proof. exact (proj2 (reduction_power_of_two_sum 2 [5; 1; 2; 3] eq_refl)). Defined.

(** X3. On six bins, an even length that is no power of two, the
    reduction ends normally but [histogramShared[0]] is not the weighted
    sum: bin 3 is counted twice (the level with cutoff 2 reads
    [histogramShared[3]], which the level with cutoff 3 had already
    folded). *)
Theorem reduction_six_bins_double_count (histogram : list Z) :
  length histogram = 6%nat →
  (histogramShared histogram).2 = Ok tt ∧
  head0 (histogramShared histogram).1
  = linear_weighted_sum histogram + 3 * default 0 (histogram !! 3%nat).
Proof. apply histogramShared_6. Qed.

Lemma reduction_six_bins_double_count_witness :
  head0 (histogramShared [1; 1; 1; 1; 1; 1]).1
  = linear_weighted_sum [1; 1; 1; 1; 1; 1] + 3 * 1.
Proof.
  exact (proj2 (reduction_six_bins_double_count [1; 1; 1; 1; 1; 1] eq_refl)).
Defined.

(** X4. How one pass of the loop (lines 14-42) ends on a histogram of
    non-negative counts, and the integers it prints: [IndexError] on an
    empty histogram; otherwise [ZeroDivisionError] when the bins sum to
    0; otherwise [IndexError] on fewer than 255 bins (line 19 reads
    [histogram[i]] up to [i = 254]) and on an odd number of bins (line
    30); on an even number of bins from 256 on it ends normally, printing
    the sum and the reduced [histogramShared[0]], as long as the latter
    is below 47267171061, and raises [OverflowError] from there on (the
    exponent of line 42 has reached 1024). *)
Theorem pass_ends_by_length_and_sum (σ : heap) (l : ref) (histogram : list Z) :
  σ !! l = Some histogram → nonneg histogram →
  outcome_map printed_ints (process l σ).2 =
    if decide (length histogram = 0%nat) then Raise IndexError
    else if decide (sum histogram = 0) then Raise ZeroDivisionError
    else if decide (length histogram < 255)%nat then Raise IndexError
    else if Nat.even (length histogram)
         then if decide (head0 (histogramShared histogram).1 < 47267171061)
              then Ok (sum histogram, head0 (histogramShared histogram).1)
              else Raise OverflowError
         else Raise IndexError.
Proof. apply process_outcome_nonneg. Qed.

(** 256 bins with 1 000 000 000 samples in bin 255: the weighted sum is
    printed by line 33 and line 42 raises [OverflowError]. *)
Lemma pass_ends_by_length_and_sum_witness :
  outcome_map printed_ints (run (single_bin 256 255 1000000000)).2
  = Raise OverflowError.
Proof.
  etransitivity.
  - apply (pass_ends_by_length_and_sum
             {[ 1%positive := single_bin 256 255 1000000000 ]}
             1%positive (single_bin 256 255 1000000000)).
    + apply lookup_singleton_eq.
    + apply Forall_insert; [apply Forall_replicate|]; lia.
  - vm_compute. reflexivity.
Defined.

(** X5. On a histogram of [2 ^ k] bins, [k >= 8], of non-negative counts
    with a non-zero sum, the pass prints the pixel count
    [sum(histogram)] and the weighted sum of [i * histogram[i]] and ends
    normally when that weighted sum is below 47267171061; from there on
    it raises [OverflowError]. *)
Theorem pass_power_of_two_report
    (σ : heap) (l : ref) (histogram : list Z) (k : nat) :
  σ !! l = Some histogram → length histogram = (2 ^ k)%nat → (8 ≤ k)%nat →
  nonneg histogram → sum histogram ≠ 0 →
  outcome_map printed_ints (process l σ).2 =
    if decide (linear_weighted_sum histogram < 47267171061)
    then Ok (sum histogram, linear_weighted_sum histogram)
    else Raise OverflowError.
Proof. apply process_pow2_nonneg. Qed.

Lemma pass_power_of_two_report_witness :
  outcome_map printed_ints (run (single_bin 256 128 2073600)).2
  = Ok (2073600, 265420800).
Proof.
  etransitivity.
  - apply (pass_power_of_two_report _ _ (single_bin 256 128 2073600) 8).
    + apply lookup_singleton_eq.
    + reflexivity.
    + lia.
    + apply Forall_insert; [apply Forall_replicate|]; lia.
    + rewrite sum_single_bin by lia. lia.
  - vm_compute. reflexivity.
Defined.

(** X6. Invariants of the in-place folds, however the reduction ends:
    the weighted array keeps the length of the histogram, and on a
    histogram of non-negative counts every entry of it stays
    non-negative. *)
Theorem reduction_keeps_length_and_sign (histogram : list Z) :
  length (histogramShared histogram).1 = length histogram ∧
  (nonneg histogram → nonneg (histogramShared histogram).1).
Proof. split; [apply histogramShared_length | apply histogramShared_nonneg]. Qed.

(** X7. On a histogram of non-negative counts, a pass that ends normally
    prints a positive pixel count, the sum of the counts, a non-negative
    weighted sum and a weighted log average of at least -1. *)
Theorem report_bounds_nonneg
    (σ : heap) (l : ref) (histogram : list Z) (r : report) :
  σ !! l = Some histogram → nonneg histogram → (process l σ).2 = Ok r →
  pixels r = sum histogram ∧ 0 < pixels r ∧ 0 ≤ weighted_sum r ∧
  (-1 <= wla r)%R.
Proof.
  intros E Hn Hr. destruct (process_ok_inv _ _ _ _ E Hr) as (Hs & _ & _ & ->).
  pose proof (sum_nonneg _ Hn).
  pose proof (head0_nonneg _ (histogramShared_nonneg _ Hn)).
  unfold report_of. cbn [pixels weighted_sum wla].
  split; [done|]. split; [lia|]. split; [done|]. by apply wla_of_lower.
Qed.

Lemma report_bounds_nonneg_witness :
  0 < 2073600 ∧ 0 ≤ 265420800 ∧ (-1 <= 127)%R.
Proof.
  refine (proj2 (report_bounds_nonneg {[ 1%positive := single_bin 256 128 2073600 ]}
            1%positive (single_bin 256 128 2073600)
            (Report 2073600 265420800 127 (Rpower 2 (-2.25))) _ _ _)).
  - apply lookup_singleton_eq.
  - apply Forall_insert; [apply Forall_replicate|]; lia.
  - apply scenario_256_report.
Defined.

(** X8. When every sample holds non-negative counts with a non-zero sum,
    has an even number of bins, at least 256, and reduces to a
    [histogramShared[0]] below 47267171061, the loop of lines 10-43 runs
    over all of them and ends normally, and every list object it started
    with is as it was. *)
Theorem loop_ends_normally (σ : heap) (samples : list ref) :
  Forall (λ l, ∃ h, σ !! l = Some h ∧ nonneg h ∧ sum h ≠ 0
                    ∧ (255 ≤ length h)%nat ∧ Nat.even (length h) = true
                    ∧ head0 (histogramShared h).1 < 47267171061) samples →
  (main_loop samples σ).2 = Ok tt ∧ σ ⊆ (main_loop samples σ).1.
Proof. by apply main_loop_ok. Qed.

Lemma loop_ends_normally_witness :
  (main_loop [1%positive; 2%positive; 1%positive]
     (<[1%positive:=single_bin 256 128 2073600]>
        {[ 2%positive := single_bin 256 0 7 ]})).2 = Ok tt.
Proof.
  refine (proj1 (loop_ends_normally _ _ _)).
  assert (H1 : ∃ h,
    (<[1%positive:=single_bin 256 128 2073600]>
       {[ 2%positive := single_bin 256 0 7 ]} : heap) !! 1%positive = Some h
    ∧ nonneg h ∧ sum h ≠ 0 ∧ (255 ≤ length h)%nat
    ∧ Nat.even (length h) = true
    ∧ head0 (histogramShared h).1 < 47267171061).
  { exists (single_bin 256 128 2073600). split; [apply lookup_insert_eq|].
    split; [apply Forall_insert; [apply Forall_replicate|]; lia|].
    rewrite sum_single_bin by lia. split; [lia|].
    split; [unfold single_bin; rewrite length_insert, length_replicate; lia|].
    split; [reflexivity|]. vm_compute. reflexivity. }
  assert (H2 : ∃ h,
    (<[1%positive:=single_bin 256 128 2073600]>
       {[ 2%positive := single_bin 256 0 7 ]} : heap) !! 2%positive = Some h
    ∧ nonneg h ∧ sum h ≠ 0 ∧ (255 ≤ length h)%nat
    ∧ Nat.even (length h) = true
    ∧ head0 (histogramShared h).1 < 47267171061).
  { exists (single_bin 256 0 7).
    split; [rewrite lookup_insert_ne by done; apply lookup_singleton_eq|].
    split; [apply Forall_insert; [apply Forall_replicate|]; lia|].
    rewrite sum_single_bin by lia. split; [lia|].
    split; [unfold single_bin; rewrite length_insert, length_replicate; lia|].
    split; [reflexivity|]. vm_compute. reflexivity. }
  repeat constructor; assumption.
Defined.

(** X9. However the loop ends, normally or by the exception of one of its
    passes, every list object of the heap it started in, each sample
    among them, has the value it had. *)
Theorem loop_keeps_heap (σ : heap) (samples : list ref) (l : ref) (v : list Z) :
  σ !! l = Some v → (main_loop samples σ).1 !! l = Some v.
Proof.
  intros E.
  assert (H : hoare (keeps σ) (main_loop samples) (λ _, keeps σ) (keeps σ)).
  { apply hoare_for_each. intros x.
    eapply hoare_bind; [apply process_keeps | intros ?; apply hoare_ret]. }
  specialize (H σ (reflexivity σ)). unfold keeps in H.
  destruct (main_loop samples σ) as [σ' [r|e]]; simpl; by eapply lookup_weaken.
Qed.

Lemma loop_keeps_heap_witness :
  (main_loop [1%positive; 1%positive] {[ 1%positive := [5; 1; 2; 3] ]}).1
    !! 1%positive = Some [5; 1; 2; 3].
Proof.
  exact (loop_keeps_heap {[ 1%positive := [5; 1; 2; 3] ]}
           [1%positive; 1%positive] 1%positive [5; 1; 2; 3]
           (lookup_singleton_eq _ _)).
Defined.

(** X10. The three calls the script makes at lines 58-60: when they
    return, [colorToBin(0.1, 0.1, 0.1)] gives bin 99,
    [colorToBin(20, 20, 20)] bin 255 and [colorToBin(20, 0.1, 30)] bin
    202.  The values before truncation are about 99.15, 255 and 202.4. *)
Theorem colorToBin_script_calls (bin1 bin2 bin3 : Z) :
  colorToBin 0.1 0.1 0.1 = Ok bin1 →
  colorToBin 20 20 20 = Ok bin2 →
  colorToBin 20 0.1 30 = Ok bin3 →
  bin1 = 99 ∧ bin2 = 255 ∧ bin3 = 202.
Proof.
  rewrite colorToBin_01, colorToBin_20, colorToBin_20_01_30.
  by intros [= <-] [= <-] [= <-].
Qed.

Lemma colorToBin_script_calls_witness : 99 = 99 ∧ 255 = 255 ∧ 202 = 202.
Proof.
  exact (colorToBin_script_calls 99 255 202
           colorToBin_01 colorToBin_20 colorToBin_20_01_30).
Defined.
